(** * Finzo recommendation engine: a shallow embedding and its properties

    The development follows [FinzoBackend/app/recommendation_engine.py]
    (capacity and allocation calculator, the four asset scorers, the risk
    management tips) and, from
    [FinzoBackend/app/recommendation_system.py], the profile
    normalisation, [generate_recommendations] and
    [generate_portfolio_guidance].

    Conventions of the embedding.
    - Python [int] is [Z].  Python [float] is read as an exact rational
      ([Q]): every arithmetic operation is the exact one, so binary64
      round-off is outside the model.  Numeric results are therefore
      compared with [==] ([Qeq]).
    - A value read from a market-data dict is a [value]: [None], a number
      or a [str]; [float()] and [int()] on it may raise, which is modelled
      in the error monad [result].
    - A dict is an association list in insertion order (the order Python
      iterates it in).
    - A formatted message (a reason, a log line) is the f-string of the
      source together with the values it interpolates; rendering it as
      text is not modelled.
    - A scorer call runs in the state monad [M]: the state holds the
      argument objects of the call and the logger output. *)

From Stdlib Require Import QArith Qround Qabs ZArith List String Ascii Bool Lia Lqa Permutation.
Import ListNotations.
Open Scope Q_scope.

(** ** The fragment of Python the engine relies on *)

Module Py.

(** *** Numbers *)

Definition Qltb (x y : Q) : bool := negb (Qle_bool y x).
Definition Qleb (x y : Q) : bool := Qle_bool x y.

(** [min(a, b)]: the second argument wins only when it is smaller. *)
Definition min (a b : Q) : Q := if Qltb b a then b else a.

(** [max(a, b)]: the second argument wins only when it is larger. *)
Definition max (a b : Q) : Q := if Qltb a b then b else a.

Definition abs (x : Q) : Q := Qabs x.

(** Nearest integer, ties to the even neighbour (the rule of [round]). *)
Definition round_half_even (q : Q) : Z :=
  let f := Qfloor q in
  match ((q - inject_Z f) ?= (1 # 2))%Q with
  | Lt => f
  | Gt => (f + 1)%Z
  | Eq => if Z.even f then f else (f + 1)%Z
  end.

Definition pow10 (n : Z) : Q := inject_Z (10 ^ n).

(** [round(x, ndigits)]. *)
Definition round (x : Q) (ndigits : Z) : Q :=
  if (0 <=? ndigits)%Z
  then inject_Z (round_half_even (x * pow10 ndigits)) / pow10 ndigits
  else inject_Z (round_half_even (x / pow10 (- ndigits))) * pow10 (- ndigits).

(** A float that may be [float('inf')]. *)
Inductive xfloat : Type :=
| Finite (q : Q)
| Infinity.

Definition xgt (x : xfloat) (y : Q) : bool :=
  match x with
  | Finite q => Qltb y q
  | Infinity => true
  end.

(** *** Exceptions *)

Inductive exn : Type :=
| ValueError
| TypeError.

Definition result (A : Type) : Type := (exn + A)%type.

Definition ok {A} (x : A) : result A := inr x.
Definition raise {A} (e : exn) : result A := inl e.

Definition bind {A B} (c : result A) (k : A -> result B) : result B :=
  match c with
  | inl e => inl e
  | inr x => k x
  end.

(** [for x in l: acc = body x acc], left at the first exception. *)
Fixpoint for_each {A S} (l : list A) (body : A -> S -> result S) (acc : S) : result S :=
  match l with
  | [] => ok acc
  | x :: l' => bind (body x acc) (for_each l' body)
  end.

(** [try: c  except (ValueError, TypeError): h]. *)
Definition try_except {A} (c : result A) (h : A) : A :=
  match c with
  | inl _ => h
  | inr x => x
  end.

(** *** Strings *)

Definition is_space (c : ascii) : bool :=
  let n := nat_of_ascii c in
  Nat.eqb n 32 || (Nat.leb 9 n && Nat.leb n 13).

Definition is_digit (c : ascii) : bool :=
  let n := nat_of_ascii c in
  Nat.leb 48 n && Nat.leb n 57.

Definition digit_value (c : ascii) : Z := Z.of_nat (nat_of_ascii c - 48).

Definition lower_char (c : ascii) : ascii :=
  let n := nat_of_ascii c in
  if Nat.leb 65 n && Nat.leb n 90 then ascii_of_nat (n + 32) else c.

(** [s.lower()] on ASCII text. *)
Fixpoint lower (s : string) : string :=
  match s with
  | EmptyString => EmptyString
  | String c s' => String (lower_char c) (lower s')
  end.

Fixpoint lstrip (s : string) : string :=
  match s with
  | String c s' => if is_space c then lstrip s' else s
  | EmptyString => EmptyString
  end.

Fixpoint rstrip (s : string) : string :=
  match s with
  | EmptyString => EmptyString
  | String c s' =>
      match rstrip s' with
      | EmptyString => if is_space c then EmptyString else String c EmptyString
      | r => String c r
      end
  end.

Definition strip (s : string) : string := rstrip (lstrip s).

(** [sub in s]. *)
Definition contains (sub s : string) : bool :=
  match String.index 0 sub s with
  | Some _ => true
  | None => false
  end.

(** [s.split(sep)[0]] for a one-character separator. *)
Fixpoint split_head (sep : ascii) (s : string) : string :=
  match s with
  | EmptyString => EmptyString
  | String c s' => if Ascii.eqb c sep then EmptyString else String c (split_head sep s')
  end.

(** Leading decimal digits of [s]: their value on top of [acc], how many
    there are, and the rest of the text. *)
Fixpoint read_digits (s : string) (acc : Z) (n : nat) : Z * nat * string :=
  match s with
  | String c s' =>
      if is_digit c then read_digits s' (acc * 10 + digit_value c)%Z (S n)
      else (acc, n, s)
  | EmptyString => (acc, n, s)
  end.

Definition read_sign (s : string) : bool * string :=
  match s with
  | String "-" s' => (true, s')
  | String "+" s' => (false, s')
  | _ => (false, s)
  end.

Definition signed (neg : bool) (z : Z) : Z := if neg then (- z)%Z else z.

(** The optional exponent part of a float literal. *)
Definition read_exponent (s : string) : option (Z * string) :=
  match s with
  | String c s' =>
      if Ascii.eqb c "e" || Ascii.eqb c "E" then
        let '(neg, s1) := read_sign s' in
        match read_digits s1 0 0 with
        | (_, O, _) => None
        | (e, _, rest) => Some (signed neg e, rest)
        end
      else Some (0%Z, s)
  | EmptyString => Some (0%Z, s)
  end.

Definition scale10 (m e : Z) : Q :=
  if (0 <=? e)%Z then inject_Z (m * 10 ^ e) else inject_Z m / inject_Z (10 ^ (- e)).

(** [float(s)] for a [str]: surrounding blanks, a sign, decimal digits
    with an optional fraction, an optional exponent.  Any other text
    (digit separators, [inf], [nan], ...) is rejected; the rejection is
    the [ValueError] of Python. *)
Definition float_of_string (s : string) : option Q :=
  let '(neg, s1) := read_sign (strip s) in
  let '(ip, n1, s2) := read_digits s1 0 0 in
  let '(m, n2, s3) :=
    match s2 with
    | String "." s' => read_digits s' ip 0
    | _ => (ip, O, s2)
    end in
  match (n1 + n2)%nat with
  | O => None
  | _ =>
      match read_exponent s3 with
      | Some (e, EmptyString) => Some (scale10 (signed neg m) (e - Z.of_nat n2))
      | _ => None
      end
  end.

(** [int(s)] for a [str]: surrounding blanks, a sign, decimal digits. *)
Definition int_of_string (s : string) : option Z :=
  let '(neg, s1) := read_sign (strip s) in
  match read_digits s1 0 0 with
  | (_, O, _) => None
  | (z, _, EmptyString) => Some (signed neg z)
  | _ => None
  end.

(** *** Values held by the market-data dicts *)

Inductive value : Type :=
| VNone
| VNum (q : Q)
| VStr (s : string).

Definition is_not_none (v : value) : bool :=
  match v with
  | VNone => false
  | _ => true
  end.

(** [v == s] for a string literal [s]. *)
Definition eq_str (v : value) (s : string) : bool :=
  match v with
  | VStr t => String.eqb t s
  | _ => false
  end.

(** [float(v)]. *)
Definition float (v : value) : result Q :=
  match v with
  | VNone => raise TypeError
  | VNum q => ok q
  | VStr s =>
      match float_of_string s with
      | Some q => ok q
      | None => raise ValueError
      end
  end.

(** [int(s)] on a [str]. *)
Definition int_str (s : string) : result Z :=
  match int_of_string s with
  | Some z => ok z
  | None => raise ValueError
  end.

(** [v > q], [v < q] and [q >= v] for a number [q]: ordering a number
    against [None] or a [str] raises [TypeError]. *)
Definition gt_num (v : value) (q : Q) : result bool :=
  match v with
  | VNum x => ok (Qltb q x)
  | _ => raise TypeError
  end.

Definition lt_num (v : value) (q : Q) : result bool :=
  match v with
  | VNum x => ok (Qltb x q)
  | _ => raise TypeError
  end.

Definition num_ge (q : Q) (v : value) : result bool :=
  match v with
  | VNum x => ok (Qleb x q)
  | _ => raise TypeError
  end.

Definition num_lt (q : Q) (v : value) : result bool :=
  match v with
  | VNum x => ok (Qltb q x)
  | _ => raise TypeError
  end.

(** [q - v] for a number [q]. *)
Definition num_sub (q : Q) (v : value) : result Q :=
  match v with
  | VNum x => ok (q - x)
  | _ => raise TypeError
  end.

Fixpoint repeat_string (n : nat) (s : string) : string :=
  match n with
  | O => EmptyString
  | S n' => (s ++ repeat_string n' s)%string
  end.

(** [v * n] for a positive int literal [n]: a [str] is repeated. *)
Definition mul_int (v : value) (n : nat) : result value :=
  match v with
  | VNone => raise TypeError
  | VNum x => ok (VNum (x * inject_Z (Z.of_nat n)))
  | VStr s => ok (VStr (repeat_string n s))
  end.

(** Truth value of [v] in a condition. *)
Definition truthy (v : value) : bool :=
  match v with
  | VNone => false
  | VNum q => negb (Qeq_bool q 0)
  | VStr s => negb (String.eqb s "")
  end.

(** *** Dicts, in insertion order *)

Definition dict (V : Type) : Type := list (string * V).

Fixpoint get {V} (d : dict V) (k : string) : option V :=
  match d with
  | [] => None
  | (k', v) :: d' => if String.eqb k' k then Some v else get d' k
  end.

(** [d.get(k, default)]. *)
Definition get_or {V} (d : dict V) (k : string) (default : V) : V :=
  match get d k with
  | Some v => v
  | None => default
  end.

(** [d.get(k)] on a dict of values: a missing key reads as [None]. *)
Definition field (d : dict value) (k : string) : value := get_or d k VNone.

(** [k in d]. *)
Definition has_key {V} (d : dict V) (k : string) : bool :=
  match get d k with
  | Some _ => true
  | None => false
  end.

(** [d[k] = v]: an existing key keeps its position. *)
Fixpoint set {V} (d : dict V) (k : string) (v : V) : dict V :=
  match d with
  | [] => [(k, v)]
  | (k', v') :: d' => if String.eqb k' k then (k', v) :: d' else (k', v') :: set d' k v
  end.

Definition keys {V} (d : dict V) : list string := map fst d.
Definition values {V} (d : dict V) : list V := map snd d.

(** *** [sorted(l, key=..., reverse=True)]

    Stable: elements with equal keys keep their relative order. *)

Section Sorted.
Context {A : Type} (key : A -> Q).

Fixpoint insert_desc (x : A) (l : list A) : list A :=
  match l with
  | [] => [x]
  | y :: l' => if Qltb (key x) (key y) then y :: insert_desc x l' else x :: l
  end.

Definition sorted_desc (l : list A) : list A := fold_right insert_desc [] l.
End Sorted.

(** A formatted message: the f-string of the source and the values it
    interpolates, in order. *)
Record message : Type := Message {
  template : string;
  params : list value
}.

End Py.

Declare Scope py_scope.
Delimit Scope py_scope with py.
Notation "x <- c ;; k" := (Py.bind c (fun x => k))
  (at level 61, c at next level, right associativity) : py_scope.
Notation "x <? y" := (Py.Qltb x y) : Q_scope.
Notation "x <=? y" := (Py.Qleb x y) : Q_scope.

(** ** A scorer call: argument objects and logger

    A Python call receives references to its argument objects and may
    write to them and to the module logger.  [M I A] is a computation
    over the objects [I] of one call and the log, returning an [A]. *)

Module Run.

Inductive level : Type := INFO | WARNING.

Record log_record : Type := {
  log_level : level;
  log_message : Py.message
}.

Section World.
Context {I : Type}.

Record world : Type := {
  args : I;
  logged : list log_record
}.

Definition M (A : Type) : Type := world -> A * world.

Definition ret {A} (x : A) : M A := fun w => (x, w).

Definition bind {A B} (c : M A) (k : A -> M B) : M B :=
  fun w => let '(x, w') := c w in k x w'.

(** Reading the argument objects. *)
Definition arguments : M I := fun w => (args w, w).

(** [logger.info(...)] and [logger.warning(...)]. *)
Definition logger (l : level) (m : Py.message) : M unit :=
  fun w => (tt, {| args := args w;
                   logged := logged w ++ [{| log_level := l; log_message := m |}] |}).

(** [for x in l: acc = body x acc]. *)
Fixpoint for_each {A S} (l : list A) (body : A -> S -> M S) (acc : S) : M S :=
  match l with
  | [] => ret acc
  | x :: l' => bind (body x acc) (for_each l' body)
  end.
End World.

Arguments world I : clear implicits.
Arguments M I A : clear implicits.

(** A call of a function on objects taken from the caller's arguments:
    the callee sees those objects and the same log. *)
Definition local {I J A} (f : I -> J) (c : M J A) : M I A :=
  fun w =>
    let '(x, w') := c {| args := f (args w); logged := logged w |} in
    (x, {| args := args w; logged := logged w' |}).

(** A call on fresh argument objects with an empty log. *)
Definition call {I A} (c : M I A) (a : I) : A :=
  fst (c {| args := a; logged := [] |}).

End Run.

Declare Scope run_scope.
Delimit Scope run_scope with run.
Notation "x <~ c ;; k" := (Run.bind c (fun x => k))
  (at level 61, c at next level, right associativity) : run_scope.
Notation "c ;;; k" := (Run.bind c (fun _ => k))
  (at level 61, right associativity) : run_scope.

(** ** recommendation_engine.py: capacity and allocation *)

Module Engine.

(** The canonical profile dict: amounts are floats, horizon and risk
    tolerance are ints. *)
Record profile : Type := {
  monthly_income : Q;
  monthly_expense : Q;
  current_savings : Q;
  existing_investments : Q;
  current_debt : Q;
  investment_horizon : Z;
  risk_tolerance : Z
}.

Record capacity : Type := {
  monthly_surplus : Q;
  debt_to_income_ratio : Py.xfloat;
  net_worth : Q;
  emergency_fund_requirement : Q;
  current_savings_surplus : Q;
  recommended_monthly_investment : Q;
  lump_sum_investment_capacity : Q;
  debt_payment_recommendation : Q
}.

Definition calculate_investment_capacity (p : profile) : capacity :=
  let monthly_surplus := monthly_income p - monthly_expense p in
  let debt_to_income_ratio :=
    if 0 <? monthly_income p
    then Py.Finite (current_debt p / monthly_income p)
    else Py.Infinity in
  let net_worth := current_savings p + existing_investments p - current_debt p in
  let emergency_fund_requirement := monthly_expense p * 6 in
  let current_savings_surplus :=
    Py.max 0 (current_savings p - emergency_fund_requirement) in
  let '(recommended_monthly_investment, debt_payment_recommendation) :=
    if Py.xgt debt_to_income_ratio 0.5
    then (monthly_surplus * 0.3, monthly_surplus * 0.7)
    else (monthly_surplus * 0.7, monthly_surplus * 0.3) in
  let lump_sum_investment_capacity := current_savings_surplus * 0.8 in
  {| monthly_surplus := monthly_surplus;
     debt_to_income_ratio := debt_to_income_ratio;
     net_worth := net_worth;
     emergency_fund_requirement := emergency_fund_requirement;
     current_savings_surplus := current_savings_surplus;
     recommended_monthly_investment := Py.max 0 recommended_monthly_investment;
     lump_sum_investment_capacity := Py.max 0 lump_sum_investment_capacity;
     debt_payment_recommendation := Py.max 0 debt_payment_recommendation |}.

Record equity_breakdown : Type := {
  large_cap : Q;
  mid_cap : Q;
  small_cap : Q
}.

Record debt_breakdown : Type := {
  govt_bonds : Q;
  corporate_bonds : Q
}.

Record asset_allocation : Type := {
  equity : Q;
  equity_split : equity_breakdown;
  debt : Q;
  debt_split : debt_breakdown;
  commodities : Q
}.

(** Lines 87-109 of [determine_asset_allocation]: the equity, debt and
    commodity percentages before the "ensure allocations sum to 100%"
    step. *)
Definition base_allocation (p : profile) : Q * Q * Q :=
  let risk_tolerance := inject_Z (risk_tolerance p) in
  let investment_horizon := inject_Z (investment_horizon p) in
  let equity_base := Py.min (30 + risk_tolerance * 5) 90 in
  let horizon_factor := Py.min (investment_horizon / 2) 5 in
  let equity_allocation := Py.min (equity_base + horizon_factor * 2) 90 in
  let debt_allocation := 100 - equity_allocation - 5 in
  let '(equity_allocation, debt_allocation) :=
    if investment_horizon <? 3
    then
      let equity_allocation := Py.max (equity_allocation * 0.7) 20 in
      (equity_allocation, 100 - equity_allocation - 5)
    else (equity_allocation, debt_allocation) in
  let commodity_allocation := 5 in
  (equity_allocation, debt_allocation, commodity_allocation).

(** Lines 111-115: proportional scaling to a sum of 100. *)
Definition renormalize (a : Q * Q * Q) : Q * Q * Q :=
  let '(equity_allocation, debt_allocation, commodity_allocation) := a in
  let total := equity_allocation + debt_allocation + commodity_allocation in
  ((equity_allocation / total) * 100,
   (debt_allocation / total) * 100,
   (commodity_allocation / total) * 100).

Definition determine_asset_allocation (p : profile) : asset_allocation :=
  let risk_tolerance := inject_Z (risk_tolerance p) in
  let '(equity_allocation, debt_allocation, commodity_allocation) :=
    renormalize (base_allocation p) in
  let large_cap_allocation := equity_allocation * (0.7 - risk_tolerance / 30) in
  let mid_cap_allocation := equity_allocation * (0.2 + risk_tolerance / 60) in
  let small_cap_allocation := equity_allocation * (0.1 + risk_tolerance / 60) in
  let govt_bonds_allocation := debt_allocation * 0.4 in
  let corporate_bonds_allocation := debt_allocation * 0.6 in
  {| equity := Py.round equity_allocation 2;
     equity_split :=
       {| large_cap := Py.round large_cap_allocation 2;
          mid_cap := Py.round mid_cap_allocation 2;
          small_cap := Py.round small_cap_allocation 2 |};
     debt := Py.round debt_allocation 2;
     debt_split :=
       {| govt_bonds := Py.round govt_bonds_allocation 2;
          corporate_bonds := Py.round corporate_bonds_allocation 2 |};
     commodities := Py.round commodity_allocation 2 |}.

(** ** The scorers: shared vocabulary *)

Import Py.
Local Open Scope py_scope.
Local Open Scope string_scope.
Local Open Scope list_scope.
Local Open Scope Q_scope.

(** The running [score] and [reasons] of one candidate. *)
Definition tally : Type := (Q * list message)%type.

(** [score += points; reasons.append(reason)]. *)
Definition award (points : Q) (reason : message) (t : tally) : tally :=
  (fst t + points, snd t ++ [reason]).

(** [x is not None and x != ""]. *)
Definition given (v : value) : bool := is_not_none v && negb (eq_str v "").

(** [reasons[:n] if len(reasons) >= n else reasons]. *)
Definition top_reasons (n : nat) (reasons : list message) : list message :=
  if (n <=? List.length reasons)%nat then firstn n reasons else reasons.

(** [str(e)] of a caught exception, as it enters a log line. *)
Definition exn_text (e : exn) : value :=
  match e with
  | ValueError => VStr "ValueError"
  | TypeError => VStr "TypeError"
  end.

(** ** recommend_stocks *)

(** *** Step 1: fundamental analysis of one symbol (lines 180-360) *)

Definition pe_ratio_analysis (fund : dict value) (t : tally) : tally :=
  if given (field fund "pe_ratio") then
    try_except
      (pe_ratio <- float (field fund "pe_ratio") ;;
       ok (if (5 <? pe_ratio) && (pe_ratio <? 20) then
             award 4 (Message "Attractive P/E ratio of {pe_ratio:.2f}" [VNum pe_ratio]) t
           else if (20 <=? pe_ratio) && (pe_ratio <? 30) then
             award 2 (Message "Reasonable P/E ratio of {pe_ratio:.2f}" [VNum pe_ratio]) t
           else if (30 <=? pe_ratio) && (pe_ratio <? 40) then
             award 1 (Message "P/E ratio of {pe_ratio:.2f}" [VNum pe_ratio]) t
           else t))
      t
  else t.

Definition industry_pe_comparison (fund : dict value) (t : tally) : tally :=
  if is_not_none (field fund "pe_ratio") && is_not_none (field fund "industry_pe") then
    try_except
      (pe_ratio <- float (field fund "pe_ratio") ;;
       industry_pe <- float (field fund "industry_pe") ;;
       ok (if pe_ratio <? industry_pe * 0.8 then
             award 4 (Message "P/E ratio significantly below industry average ({pe_ratio:.2f} vs {industry_pe:.2f})"
                        [VNum pe_ratio; VNum industry_pe]) t
           else if pe_ratio <? industry_pe then
             award 2 (Message "P/E ratio below industry average ({pe_ratio:.2f} vs {industry_pe:.2f})"
                        [VNum pe_ratio; VNum industry_pe]) t
           else t))
      t
  else t.

Definition roe_analysis (fund : dict value) (t : tally) : tally :=
  if given (field fund "roe") then
    try_except
      (roe <- float (field fund "roe") ;;
       ok (if 20 <? roe then award 5 (Message "Excellent ROE of {roe:.2f}%" [VNum roe]) t
           else if 15 <? roe then award 4 (Message "Strong ROE of {roe:.2f}%" [VNum roe]) t
           else if 10 <? roe then award 3 (Message "Good ROE of {roe:.2f}%" [VNum roe]) t
           else if 5 <? roe then award 1 (Message "Positive ROE of {roe:.2f}%" [VNum roe]) t
           else t))
      t
  else t.

Definition debt_to_equity_analysis (fund : dict value) (t : tally) : tally :=
  if given (field fund "debt_to_equity") then
    try_except
      (debt_to_equity <- float (field fund "debt_to_equity") ;;
       ok (if debt_to_equity <? 0.3 then
             award 4 (Message "Exceptionally low debt-to-equity ratio of {debt_to_equity:.2f}"
                        [VNum debt_to_equity]) t
           else if debt_to_equity <? 0.6 then
             award 3 (Message "Very low debt-to-equity ratio of {debt_to_equity:.2f}"
                        [VNum debt_to_equity]) t
           else if debt_to_equity <? 1 then
             award 2 (Message "Good debt-to-equity ratio of {debt_to_equity:.2f}"
                        [VNum debt_to_equity]) t
           else if debt_to_equity <? 1.5 then
             award 1 (Message "Reasonable debt-to-equity ratio of {debt_to_equity:.2f}"
                        [VNum debt_to_equity]) t
           else t))
      t
  else t.

Definition eps_analysis (fund : dict value) (t : tally) : tally :=
  if given (field fund "eps") then
    try_except
      (eps <- float (field fund "eps") ;;
       ok (if 50 <? eps then award 4 (Message "High EPS of ₹{eps:.2f}" [VNum eps]) t
           else if 20 <? eps then award 3 (Message "Good EPS of ₹{eps:.2f}" [VNum eps]) t
           else if 10 <? eps then award 2 (Message "Positive EPS of ₹{eps:.2f}" [VNum eps]) t
           else t))
      t
  else t.

Definition dividend_yield_analysis (fund : dict value) (t : tally) : tally :=
  if given (field fund "dividend_yield") then
    try_except
      (div_yield <- float (field fund "dividend_yield") ;;
       ok (if 4 <? div_yield then
             award 3 (Message "Excellent dividend yield of {div_yield:.2f}%" [VNum div_yield]) t
           else if 2 <? div_yield then
             award 2 (Message "Good dividend yield of {div_yield:.2f}%" [VNum div_yield]) t
           else if 1 <? div_yield then
             award 1 (Message "Positive dividend yield of {div_yield:.2f}%" [VNum div_yield]) t
           else t))
      t
  else t.

Definition profit_growth_analysis (fund : dict value) (t : tally) : tally :=
  if given (field fund "profit_growth") then
    try_except
      (profit_growth <- float (field fund "profit_growth") ;;
       ok (if 30 <? profit_growth then
             award 5 (Message "Exceptional profit growth of {profit_growth:.2f}%" [VNum profit_growth]) t
           else if 20 <? profit_growth then
             award 4 (Message "Strong profit growth of {profit_growth:.2f}%" [VNum profit_growth]) t
           else if 10 <? profit_growth then
             award 3 (Message "Good profit growth of {profit_growth:.2f}%" [VNum profit_growth]) t
           else if 5 <? profit_growth then
             award 1 (Message "Positive profit growth of {profit_growth:.2f}%" [VNum profit_growth]) t
           else t))
      t
  else t.

(** Market cap: the size category, and points when it suits the risk
    tolerance. *)
Definition market_cap_analysis (p : profile) (fund : dict value) (t : tally)
  : string * tally :=
  let market_cap_category := "Unknown" in
  if given (field fund "market_cap") then
    try_except
      (market_cap <- float (field fund "market_cap") ;;
       let market_cap_crores := market_cap / 10000000 in
       let risk_tolerance := risk_tolerance p in
       ok (if 50000 <? market_cap_crores then
             ("Large Cap",
              if (risk_tolerance <=? 4)%Z then
                award 3 (Message "Large cap stock aligns with your lower risk profile" []) t
              else t)
           else if 5000 <? market_cap_crores then
             ("Mid Cap",
              if ((4 <? risk_tolerance) && (risk_tolerance <? 8))%Z then
                award 3 (Message "Mid cap stock aligns with your moderate risk profile" []) t
              else t)
           else
             ("Small Cap",
              if (7 <=? risk_tolerance)%Z then
                award 3 (Message "Small cap stock aligns with your higher risk profile" []) t
              else t)))
      (market_cap_category, t)
  else (market_cap_category, t).

(** [sector in sector_sentiment], then the sentiment label. *)
Definition sector_evaluation (sector_sentiment : dict (dict value)) (sector : value)
    (t : tally) : tally :=
  match sector with
  | VStr name =>
      if has_key sector_sentiment name then
        let sector_sent := get_or sector_sentiment name [] in
        if eq_str (field sector_sent "sentiment") "positive" then
          award 2 (Message "Positive sentiment for {sector} sector" [sector]) t
        else if eq_str (field sector_sent "sentiment") "neutral" then
          award 1 (Message "Neutral sentiment for {sector} sector" [sector]) t
        else t
      else t
  | _ => t
  end.

Definition complete_data_bonus (fund : dict value) (t : tally) : tally :=
  if forallb (fun key => has_key fund key && is_not_none (field fund key))
       ["pe_ratio"; "roe"; "debt_to_equity"; "eps"]
  then award 1 (Message "Complete fundamental analysis available" []) t
  else t.

(** An entry of [fundamental_scores]. *)
Record fundamental_entry : Type := {
  fe_symbol : string;
  fe_name : value;
  fe_sector : value;
  fe_market_cap_category : string;
  fe_score : Q;
  fe_reasons : list message
}.

Definition fundamental_analysis (p : profile) (sector_sentiment : dict (dict value))
    (symbol : string) (fund : dict value) : fundamental_entry :=
  let t : tally := (0, []) in
  let t := pe_ratio_analysis fund t in
  let t := industry_pe_comparison fund t in
  let t := roe_analysis fund t in
  let t := debt_to_equity_analysis fund t in
  let t := eps_analysis fund t in
  let t := dividend_yield_analysis fund t in
  let t := profit_growth_analysis fund t in
  let '(market_cap_category, t) := market_cap_analysis p fund t in
  let sector := get_or fund "sector" (VStr "Unknown") in
  let t := sector_evaluation sector_sentiment sector t in
  let t := complete_data_bonus fund t in
  {| fe_symbol := symbol;
     fe_name := get_or fund "name" (VStr symbol);
     fe_sector := sector;
     fe_market_cap_category := market_cap_category;
     fe_score := fst t;
     fe_reasons := snd t |}.

(** *** Step 2: technical analysis of one candidate (lines 391-509)

    The conversions here are not guarded one by one: an exception
    leaves the whole [try] block. *)

Definition price_to_ma50_analysis (tech : dict value) (t : tally) : result tally :=
  if is_not_none (field tech "price_to_ma50") then
    price_to_ma50 <- float (field tech "price_to_ma50") ;;
    ok (if 1.1 <? price_to_ma50 then
          award 3 (Message "Very strong bullish trend (price 10% above 50-day MA)" []) t
        else if 1.05 <? price_to_ma50 then
          award 2 (Message "Strong bullish trend (price 5% above 50-day MA)" []) t
        else if 1 <? price_to_ma50 then
          award 1 (Message "Price above 50-day moving average" []) t
        else t)
  else ok t.

Definition price_to_ma200_analysis (tech : dict value) (t : tally) : result tally :=
  if is_not_none (field tech "price_to_ma200") then
    price_to_ma200 <- float (field tech "price_to_ma200") ;;
    ok (if 1.2 <? price_to_ma200 then
          award 4 (Message "Exceptional long-term uptrend (price 20% above 200-day MA)" []) t
        else if 1.1 <? price_to_ma200 then
          award 3 (Message "Strong long-term uptrend (price 10% above 200-day MA)" []) t
        else if 1 <? price_to_ma200 then
          award 2 (Message "Price above 200-day moving average (bullish)" []) t
        else t)
  else ok t.

Definition rsi_analysis (tech : dict value) (t : tally) : result tally :=
  if is_not_none (field tech "rsi") then
    rsi <- float (field tech "rsi") ;;
    ok (if (45 <=? rsi) && (rsi <=? 55) then
          award 2 (Message "RSI in optimal neutral zone ({rsi:.2f})" [VNum rsi]) t
        else if (55 <? rsi) && (rsi <? 65) then
          award 3 (Message "RSI showing strength without overheating ({rsi:.2f})" [VNum rsi]) t
        else if (65 <=? rsi) && (rsi <? 70) then
          award 1 (Message "RSI showing strength ({rsi:.2f})" [VNum rsi]) t
        else if 70 <=? rsi then
          award (-1) (Message "RSI in overbought territory ({rsi:.2f})" [VNum rsi]) t
        else if (30 <? rsi) && (rsi <=? 40) then
          award 1 (Message "RSI in potential accumulation zone ({rsi:.2f})" [VNum rsi]) t
        else if rsi <=? 30 then
          award 0.5 (Message "RSI in oversold territory - potential bounce ({rsi:.2f})" [VNum rsi]) t
        else t)
  else ok t.

(** [a and b] where [b] may raise: [b] is evaluated only when [a] holds. *)
Definition and_then (a : bool) (b : result bool) : result bool :=
  if a then b else ok false.

Definition macd_analysis (tech : dict value) (t : tally) : result tally :=
  if is_not_none (field tech "macd") && is_not_none (field tech "macd_signal") then
    macd <- float (field tech "macd") ;;
    macd_signal <- float (field tech "macd_signal") ;;
    strong <- and_then ((0 <? macd) && (macd_signal <? macd))
                (gt_num (get_or tech "macd_histogram" (VNum 0)) 0) ;;
    let t :=
      if strong then
        award 3 (Message "Strong MACD bullish signal (positive and above signal line)" []) t
      else if macd_signal <? macd then
        award 2 (Message "MACD above signal line (bullish)" []) t
      else
        award (-0.5) (Message "MACD below signal line (bearish)" []) t in
    rising <- gt_num (get_or tech "macd_histogram" (VNum 0)) 0 ;;
    crossover <- and_then rising (lt_num (get_or tech "macd_histogram_prev" (VNum 0)) 0) ;;
    ok (if crossover then
          award 3 (Message "Recent MACD bullish crossover (strong buy signal)" []) t
        else t)
  else ok t.

Definition volume_change_analysis (tech : dict value) (t : tally) : result tally :=
  if is_not_none (field tech "volume_change") then
    volume_change <- float (field tech "volume_change") ;;
    ok (if 2 <? volume_change then
          award 2 (Message "Very high trading volume ({volume_change:.2f}x average)"
                     [VNum volume_change]) t
        else if 1.5 <? volume_change then
          award 1 (Message "Higher than average volume ({volume_change:.2f}x)"
                     [VNum volume_change]) t
        else t)
  else ok t.

Definition day_change_analysis (tech : dict value) (t : tally) : result tally :=
  if is_not_none (field tech "day_change") then
    day_change <- float (field tech "day_change") ;;
    ok (if 3 <? day_change then
          award 2 (Message "Strong positive momentum (up {day_change:.2f}% today)"
                     [VNum day_change]) t
        else if 1 <? day_change then
          award 1 (Message "Positive momentum (up {day_change:.2f}% today)"
                     [VNum day_change]) t
        else t)
  else ok t.

Definition volatility_assessment (p : profile) (tech : dict value) (t : tally)
  : result tally :=
  if is_not_none (field tech "volatility") then
    volatility <- float (field tech "volatility") ;;
    let risk_tolerance := risk_tolerance p in
    ok (if (8 <=? risk_tolerance)%Z && (30 <? volatility) then
          award 1 (Message "High volatility aligned with your risk profile ({volatility:.2f}%)"
                     [VNum volatility]) t
        else if ((4 <=? risk_tolerance) && (risk_tolerance <=? 7))%Z
                && ((15 <=? volatility) && (volatility <=? 30)) then
          award 1 (Message "Moderate volatility aligned with your risk profile ({volatility:.2f}%)"
                     [VNum volatility]) t
        else if (risk_tolerance <=? 3)%Z && (volatility <? 15) then
          award 1 (Message "Low volatility aligned with your risk profile ({volatility:.2f}%)"
                     [VNum volatility]) t
        else t)
  else ok t.

(** An entry of [stock_scores]. *)
Record stock_entry : Type := {
  se_symbol : string;
  se_name : value;
  se_sector : value;
  se_market_cap_category : string;
  se_score : Q;
  se_current_price : value;
  se_pe_ratio : value;
  se_dividend_yield : value;
  se_reasons : list message
}.

(** The body of the [try] of step 2 for one of the top fundamental
    candidates: it starts from the fundamental score and a copy of the
    fundamental reasons. *)
Definition technical_analysis (p : profile) (fundamental_data : dict (dict value))
    (stock : fundamental_entry) (tech : dict value) : result stock_entry :=
  let symbol := fe_symbol stock in
  let t : tally := (fe_score stock, fe_reasons stock) in
  t <- price_to_ma50_analysis tech t ;;
  t <- price_to_ma200_analysis tech t ;;
  t <- rsi_analysis tech t ;;
  t <- macd_analysis tech t ;;
  t <- volume_change_analysis tech t ;;
  t <- day_change_analysis tech t ;;
  t <- volatility_assessment p tech t ;;
  ok {| se_symbol := symbol;
        se_name := fe_name stock;
        se_sector := fe_sector stock;
        se_market_cap_category := fe_market_cap_category stock;
        se_score := fst t;
        se_current_price := field tech "current_price";
        se_pe_ratio := field (get_or fundamental_data symbol []) "pe_ratio";
        se_dividend_yield := field (get_or fundamental_data symbol []) "dividend_yield";
        se_reasons := snd t |}.

(** *** Ranking and formatting (lines 515-565) *)

Definition max_possible_score : Q := 25.
Definition min_possible_score : Q := -3.

(** The 1-10 scale of [recommendation_strength]. *)
Definition recommendation_strength_of (score : Q) : Q :=
  let normalized_score :=
    ((score - min_possible_score) / (max_possible_score - min_possible_score)) * 10 in
  let normalized_score := normalized_score * 1.15 in
  let normalized_score := Py.max 1 (Py.min 10 normalized_score) in
  Py.round normalized_score 1.

Record stock_recommendation : Type := {
  sr_symbol : string;
  sr_name : value;
  sr_sector : message;
  sr_current_price : value;
  sr_pe_ratio : value;
  sr_dividend_yield : value;
  recommendation_strength : Q;
  sr_reason : list message;
  raw_score : Q
}.

Definition format_stock (stock : stock_entry) : stock_recommendation :=
  let market_cap_info :=
    if negb (String.eqb (se_market_cap_category stock) "Unknown")
    then (se_market_cap_category stock ++ " - ")%string else "" in
  let sector_info :=
    if negb (eq_str (se_sector stock) "Unknown") then se_sector stock
    else VStr "Diverse Sector" in
  {| sr_symbol := se_symbol stock;
     sr_name := se_name stock;
     sr_sector := Message "{market_cap_info}{sector_info}" [VStr market_cap_info; sector_info];
     sr_current_price := se_current_price stock;
     sr_pe_ratio := se_pe_ratio stock;
     sr_dividend_yield := se_dividend_yield stock;
     recommendation_strength := recommendation_strength_of (se_score stock);
     sr_reason := top_reasons 3 (se_reasons stock);
     raw_score := se_score stock |}.

(** The argument objects of a [recommend_stocks] call. *)
Record stock_args : Type := {
  sa_profile : profile;
  sa_stock_data : dict (dict (dict value));
  sa_sentiment_data : dict (dict (dict value))
}.

Local Open Scope run_scope.

(** In step 1 every conversion has its own [try], so the outer
    [except Exception] handler of that loop is never entered; in step 2
    it is, and the candidate is skipped with a warning. *)
Definition recommend_stocks : Run.M stock_args (list stock_recommendation) :=
  Run.logger Run.INFO (Message "Generating stock recommendations" []) ;;;
  a <~ Run.arguments ;;
  let profile := sa_profile a in
  let technical_data := get_or (sa_stock_data a) "technical" [] in
  let fundamental_data := get_or (sa_stock_data a) "fundamental" [] in
  let sector_sentiment := get_or (sa_sentiment_data a) "sector_sentiment" [] in
  let valid_stocks := filter (has_key fundamental_data) (keys technical_data) in
  match valid_stocks with
  | [] =>
      Run.logger Run.WARNING (Message "No valid stocks with complete data found" []) ;;;
      Run.ret []
  | _ =>
      fundamental_scores <~
        Run.for_each valid_stocks
          (fun symbol fundamental_scores =>
             match get_or fundamental_data symbol [] with
             | [] => Run.ret fundamental_scores
             | fund =>
                 Run.ret (set fundamental_scores symbol
                            (fundamental_analysis profile sector_sentiment symbol fund))
             end)
          [] ;;
      let sorted_fundamental := sorted_desc fe_score (values fundamental_scores) in
      let top_fundamental_stocks := firstn 25 sorted_fundamental in
      match top_fundamental_stocks with
      | [] =>
          Run.logger Run.WARNING
            (Message "No stocks passed the fundamental analysis filter" []) ;;;
          Run.ret []
      | _ =>
          stock_scores <~
            Run.for_each top_fundamental_stocks
              (fun stock stock_scores =>
                 let symbol := fe_symbol stock in
                 match get_or technical_data symbol [] with
                 | [] => Run.ret stock_scores
                 | tech =>
                     match technical_analysis profile fundamental_data stock tech with
                     | inr entry => Run.ret (set stock_scores symbol entry)
                     | inl e =>
                         Run.logger Run.WARNING
                           (Message "Error processing technical data for {symbol}: {e}"
                              [VStr symbol; exn_text e]) ;;;
                         Run.ret stock_scores
                     end
                 end)
              [] ;;
          let sorted_stocks := sorted_desc se_score (values stock_scores) in
          let top_stocks := firstn 8 sorted_stocks in
          match top_stocks with
          | [] =>
              Run.logger Run.WARNING
                (Message "No stocks passed both fundamental and technical filters" []) ;;;
              Run.ret []
          | _ =>
              let recommendations := map format_stock top_stocks in
              Run.logger Run.INFO
                (Message "Generated {len(recommendations)} stock recommendations"
                   [VNum (inject_Z (Z.of_nat (List.length recommendations)))]) ;;;
              Run.ret recommendations
          end
      end
  end.

(** ** recommend_mutual_funds *)

(** [score += points], without a reason. *)
Definition add_points (points : Q) (t : tally) : tally := (fst t + points, snd t).

(** [reasons.append(reason)]. *)
Definition add_reason (reason : message) (t : tally) : tally := (fst t, snd t ++ [reason]).

Definition risk_level_map : dict Q :=
  [("Very Low", 1); ("Low", 3); ("Medium", 5); ("High", 8); ("Very High", 10)].

(** [risk_level_map.get(risk_level, 5)]: the keys are strings, any
    other value finds nothing. *)
Definition risk_level_lookup (risk_level : value) : Q :=
  match risk_level with
  | VStr s => get_or risk_level_map s 5
  | _ => 5
  end.

(** Lines 601-618: the numeric risk of a fund. *)
Definition fund_risk_of (fund : dict value) : Q :=
  if is_not_none (field fund "risk_rating") then
    try_except (float (field fund "risk_rating")) 5
  else
    let risk_level := get_or fund "risk_level" (VStr "Medium") in
    risk_level_lookup risk_level.

(** Lines 620-624: the risk alignment of the mutual fund scorer. *)
Definition fund_risk_alignment (risk_tolerance : Z) (fund_risk : Q) (t : tally) : tally :=
  let risk_match := 10 - Py.abs (inject_Z risk_tolerance - fund_risk) in
  let t := add_points risk_match t in
  if 7 <? risk_match then
    add_reason (Message "Risk profile aligns well with your tolerance" []) t
  else t.

(** Lines 626-676: returns, by investment horizon. *)
Definition fund_returns_analysis (investment_horizon : Z) (fund_risk : Q)
    (fund : dict value) (t : tally) : tally :=
  if (investment_horizon <=? 1)%Z then
    let t :=
      if is_not_none (field fund "one_year_return") then
        try_except
          (one_year_return <- float (field fund "one_year_return") ;;
           ok (if 10 <? one_year_return then
                 award 3 (Message "Strong 1-year return of {one_year_return:.2f}%"
                            [VNum one_year_return]) t
               else if 5 <? one_year_return then
                 award 2 (Message "Good 1-year return of {one_year_return:.2f}%"
                            [VNum one_year_return]) t
               else t))
          t
      else t in
    if fund_risk <? 4 then
      award 3 (Message "Low risk suitable for short-term investment" []) t
    else t
  else if (investment_horizon <=? 3)%Z then
    if is_not_none (field fund "one_year_return")
       && is_not_none (field fund "three_year_return") then
      try_except
        (one_year_return <- float (field fund "one_year_return") ;;
         three_year_return <- float (field fund "three_year_return") ;;
         let avg_return := (one_year_return + three_year_return) / 2 in
         ok (if 12 <? avg_return then
               award 3 (Message "Strong avg return of {avg_return:.2f}% over 1-3 years"
                          [VNum avg_return]) t
             else if 8 <? avg_return then
               award 2 (Message "Good avg return of {avg_return:.2f}% over 1-3 years"
                          [VNum avg_return]) t
             else t))
        t
    else t
  else
    if is_not_none (field fund "three_year_return")
       && is_not_none (field fund "five_year_return") then
      try_except
        (three_year_return <- float (field fund "three_year_return") ;;
         five_year_return <- float (field fund "five_year_return") ;;
         let avg_return := (three_year_return + five_year_return) / 2 in
         ok (if 12 <? avg_return then
               award 5 (Message "Excellent avg return of {avg_return:.2f}% over 3-5 years"
                          [VNum avg_return]) t
             else if 9 <? avg_return then
               award 3 (Message "Strong avg return of {avg_return:.2f}% over 3-5 years"
                          [VNum avg_return]) t
             else t))
        t
    else t.

(** Lines 678-693. *)
Definition fund_category_alignment (p : profile) (fund : dict value) (t : tally) : tally :=
  let asset_allocation := determine_asset_allocation p in
  let equity_allocation := equity asset_allocation in
  let debt_allocation := debt asset_allocation in
  let category := get_or fund "category" (VStr "") in
  if (60 <? equity_allocation) && eq_str category "Equity" then
    award 2 (Message "Equity fund aligns with your recommended asset allocation" []) t
  else if (60 <? debt_allocation) && eq_str category "Debt" then
    award 2 (Message "Debt fund aligns with your recommended asset allocation" []) t
  else if ((40 <=? equity_allocation) && (equity_allocation <=? 60))
          && eq_str category "Hybrid" then
    award 3 (Message "Hybrid fund perfectly aligns with your balanced allocation" []) t
  else t.

Definition expense_ratio_consideration (fund : dict value) (t : tally) : tally :=
  if is_not_none (field fund "expense_ratio") then
    try_except
      (expense_ratio <- float (field fund "expense_ratio") ;;
       ok (if expense_ratio <? 0.5 then
             award 2 (Message "Very low expense ratio of {expense_ratio:.2f}%"
                        [VNum expense_ratio]) t
           else if expense_ratio <? 1.0 then
             award 1 (Message "Low expense ratio of {expense_ratio:.2f}%"
                        [VNum expense_ratio]) t
           else t))
      t
  else t.

Definition aum_size_consideration (fund : dict value) (t : tally) : tally :=
  if is_not_none (field fund "aum_crores") then
    try_except
      (aum_crores <- float (field fund "aum_crores") ;;
       ok (if 5000 <? aum_crores then
             award 1 (Message "Large fund size of ₹{aum_crores:.2f} crores"
                        [VNum aum_crores]) t
           else t))
      t
  else t.

(** An entry of [fund_scores]. *)
Record fund_entry : Type := {
  mf_code : string;
  mf_name : value;
  mf_category : value;
  mf_nav : value;
  mf_one_year_return : value;
  mf_three_year_return : value;
  mf_five_year_return : value;
  mf_expense_ratio : value;
  mf_score : Q;
  mf_reasons : list message
}.

Definition score_fund (p : profile) (fund_code : string) (fund : dict value) : fund_entry :=
  let risk_tolerance := risk_tolerance p in
  let investment_horizon := investment_horizon p in
  let t : tally := (0, []) in
  let fund_risk := fund_risk_of fund in
  let t := fund_risk_alignment risk_tolerance fund_risk t in
  let t := fund_returns_analysis investment_horizon fund_risk fund t in
  let t := fund_category_alignment p fund t in
  let t := expense_ratio_consideration fund t in
  let t := aum_size_consideration fund t in
  {| mf_code := fund_code;
     mf_name := field fund "name";
     mf_category := field fund "category";
     mf_nav := field fund "nav";
     mf_one_year_return := field fund "one_year_return";
     mf_three_year_return := field fund "three_year_return";
     mf_five_year_return := field fund "five_year_return";
     mf_expense_ratio := field fund "expense_ratio";
     mf_score := fst t;
     mf_reasons := snd t |}.

Record fund_recommendation : Type := {
  fr_code : string;
  fr_name : value;
  fr_category : value;
  fr_nav : value;
  fr_expense_ratio : value;
  fr_returns : value * value * value;
  fr_reason : list message
}.

Definition format_fund (fund : fund_entry) : fund_recommendation :=
  {| fr_code := mf_code fund;
     fr_name := mf_name fund;
     fr_category := mf_category fund;
     fr_nav := mf_nav fund;
     fr_expense_ratio := mf_expense_ratio fund;
     fr_returns := (mf_one_year_return fund, mf_three_year_return fund,
                    mf_five_year_return fund);
     fr_reason := top_reasons 2 (mf_reasons fund) |}.

Record fund_args : Type := {
  fa_profile : profile;
  fa_mutual_fund_data : dict (dict value)
}.

(** No statement of the loop body can raise on these data, so its
    [except Exception] handler (a warning and [continue]) is never
    entered. *)
Definition recommend_mutual_funds : Run.M fund_args (list fund_recommendation) :=
  Run.logger Run.INFO (Message "Generating mutual fund recommendations" []) ;;;
  a <~ Run.arguments ;;
  let profile := fa_profile a in
  fund_scores <~
    Run.for_each (fa_mutual_fund_data a)
      (fun '(fund_code, fund) fund_scores =>
         Run.ret (set fund_scores fund_code (score_fund profile fund_code fund)))
      [] ;;
  let sorted_funds := sorted_desc mf_score (values fund_scores) in
  let top_funds := firstn 7 sorted_funds in
  let recommendations := map format_fund top_funds in
  Run.logger Run.INFO
    (Message "Generated {len(recommendations)} mutual fund recommendations"
       [VNum (inject_Z (Z.of_nat (List.length recommendations)))]) ;;;
  Run.ret recommendations.

(** ** recommend_commodities *)

Definition commodity_type_score (commodity_name : string) (t : tally) : tally :=
  if String.eqb commodity_name "Gold" then
    award 5 (Message "Gold is a traditional hedge against inflation and market volatility" []) t
  else if String.eqb commodity_name "Silver" then
    award 4 (Message "Silver offers industrial usage and investment potential" []) t
  else if contains "Oil" commodity_name then
    award 3 (Message "Energy commodities offer portfolio diversification" []) t
  else
    award 2 (Message "{commodity_name} adds diversification to your portfolio"
               [VStr commodity_name]) t.

Definition commodity_performance (commodity : dict value) (t : tally) : tally :=
  if is_not_none (field commodity "day_change") then
    try_except
      (day_change <- float (field commodity "day_change") ;;
       ok (if 1.0 <? day_change then
             award 2 (Message "Showing positive momentum ({day_change:.2f}%)"
                        [VNum day_change]) t
           else if 0 <? day_change then
             award 1 (Message "Slight positive trend ({day_change:.2f}%)"
                        [VNum day_change]) t
           else if day_change <? -1.0 then
             award (-1) (Message "Recent downward trend ({day_change:.2f}%)"
                           [VNum day_change]) t
           else t))
      t
  else t.

Definition is_one_of (names : list string) (s : string) : bool :=
  existsb (String.eqb s) names.

Definition commodity_risk_alignment (risk_tolerance : Z) (commodity_name : string)
    (t : tally) : tally :=
  if (risk_tolerance <=? 3)%Z then
    if String.eqb commodity_name "Gold" then
      award 3 (Message "Gold aligns well with your conservative risk profile" []) t
    else t
  else if (risk_tolerance <=? 7)%Z then
    if is_one_of ["Gold"; "Silver"] commodity_name then
      award 2 (Message "Precious metals align with your moderate risk profile" []) t
    else t
  else
    if negb (is_one_of ["Gold"; "Silver"] commodity_name) then
      award 2 (Message "{commodity_name} offers growth potential matching your higher risk profile"
                 [VStr commodity_name]) t
    else t.

Definition commodity_horizon_considerations (investment_horizon : Z)
    (commodity_name : string) (t : tally) : tally :=
  if (investment_horizon <=? 2)%Z then
    if String.eqb commodity_name "Gold" then
      award 2 (Message "Suitable for your shorter investment horizon" []) t
    else t
  else if (5 <=? investment_horizon)%Z then
    if is_one_of ["Copper"; "Aluminium"; "Crude Oil"] commodity_name then
      award 2 (Message "Good for long-term growth with your investment horizon" []) t
    else t
  else t.

Definition commodity_strategic_allocation (commodity_allocation : Q)
    (commodity_name : string) (t : tally) : tally :=
  if commodity_allocation <=? 5 then
    if String.eqb commodity_name "Gold" then
      award 1 (Message "Optimal for small commodity allocation in your portfolio" []) t
    else t
  else t.

(** An entry of [commodity_scores]. *)
Record commodity_entry : Type := {
  ce_name : string;
  ce_score : Q;
  ce_current_price : value;
  ce_unit : value;
  ce_reasons : list message
}.

Definition score_commodity (p : profile) (commodity_allocation : Q)
    (commodity_name : string) (commodity : dict value) : commodity_entry :=
  let risk_tolerance := risk_tolerance p in
  let investment_horizon := investment_horizon p in
  let t : tally := (0, []) in
  let t := commodity_type_score commodity_name t in
  let t := commodity_performance commodity t in
  let t := commodity_risk_alignment risk_tolerance commodity_name t in
  let t := commodity_horizon_considerations investment_horizon commodity_name t in
  let t := commodity_strategic_allocation commodity_allocation commodity_name t in
  let current_price := get_or commodity "current_price" (VNum 0) in
  let current_price := if negb (truthy current_price) then VNum 0 else current_price in
  let unit := get_or commodity "unit" (VStr "") in
  {| ce_name := commodity_name;
     ce_score := fst t;
     ce_current_price := current_price;
     ce_unit := unit;
     ce_reasons := snd t |}.

Record commodity_recommendation : Type := {
  cr_name : string;
  cr_current_price : value;
  cr_unit : value;
  cr_reason : list message
}.

Definition format_commodity (commodity : commodity_entry) : commodity_recommendation :=
  let current_price := ce_current_price commodity in
  let current_price := if is_not_none current_price then current_price else VNum 0 in
  {| cr_name := ce_name commodity;
     cr_current_price := current_price;
     cr_unit := ce_unit commodity;
     cr_reason := top_reasons 2 (ce_reasons commodity) |}.

Record commodity_args : Type := {
  ca_profile : profile;
  ca_commodity_data : dict (dict value)
}.

(** As in the mutual fund scorer, the [except Exception] handler of
    the loop body is never entered. *)
Definition recommend_commodities : Run.M commodity_args (list commodity_recommendation) :=
  Run.logger Run.INFO (Message "Generating commodity recommendations" []) ;;;
  a <~ Run.arguments ;;
  let profile := ca_profile a in
  let asset_allocation := determine_asset_allocation profile in
  let commodity_allocation := commodities asset_allocation in
  commodity_scores <~
    Run.for_each (ca_commodity_data a)
      (fun '(commodity_name, commodity) commodity_scores =>
         Run.ret (set commodity_scores commodity_name
                    (score_commodity profile commodity_allocation commodity_name commodity)))
      [] ;;
  let sorted_commodities := sorted_desc ce_score (values commodity_scores) in
  let top_commodities := firstn 3 sorted_commodities in
  let recommendations := map format_commodity top_commodities in
  Run.logger Run.INFO
    (Message "Generated {len(recommendations)} commodity recommendations"
       [VNum (inject_Z (Z.of_nat (List.length recommendations)))]) ;;;
  Run.ret recommendations.

(** ** recommend_sip

    The loop of this scorer has no [try]: an exception raised for one
    plan leaves the function. *)

(** Lines 936-957: the risk alignment of the SIP scorer. *)
Definition sip_risk_alignment (risk_tolerance : Z) (sip : dict value) (t : tally)
  : result tally :=
  if is_not_none (field sip "risk_level") then
    let sip_risk_numeric := risk_level_lookup (field sip "risk_level") in
    let risk_match := 10 - Py.abs (inject_Z risk_tolerance - sip_risk_numeric) in
    let t := add_points risk_match t in
    ok (if 7 <? risk_match then
          add_reason (Message "Risk profile aligns well with your tolerance" []) t
        else t)
  else if is_not_none (field sip "risk_rating") then
    difference <- num_sub (inject_Z risk_tolerance) (field sip "risk_rating") ;;
    let risk_match := 10 - Py.abs difference in
    let t := add_points risk_match t in
    ok (if 7 <? risk_match then
          add_reason (Message "Risk profile aligns well with your tolerance" []) t
        else t)
  else ok t.

(** Lines 962-974: the minimum duration, [None] when it cannot be read. *)
Definition min_duration_of (recommended_duration : value) : value :=
  match recommended_duration with
  | VStr s =>
      if contains "-" s then
        try_except (z <- int_str (split_head "-" s) ;; ok (VNum (inject_Z z))) VNone
      else VNone
  | VNum q => VNum q
  | VNone => VNone
  end.

Definition sip_horizon_alignment (investment_horizon : Z) (sip : dict value) (t : tally)
  : tally :=
  if is_not_none (field sip "recommended_duration") then
    let recommended_duration := field sip "recommended_duration" in
    match min_duration_of recommended_duration with
    | VNum min_duration =>
        if min_duration <=? inject_Z investment_horizon then
          award 3 (Message "Your investment horizon of {investment_horizon} years meets the recommended minimum of {min_duration} years"
                     [VNum (inject_Z investment_horizon); VNum min_duration]) t
        else
          award (-2) (Message "Your investment horizon of {investment_horizon} years is less than the recommended minimum of {min_duration} years"
                        [VNum (inject_Z investment_horizon); VNum min_duration]) t
    | _ => t
    end
  else t.

(** Lines 984-1004: four independent tests on the plan name. *)
Definition sip_allocation_alignment (risk_tolerance : Z) (asset_allocation : asset_allocation)
    (sip_name : string) (t : tally) : tally :=
  let t :=
    if contains "Equity" sip_name && (50 <? equity asset_allocation) then
      award 2 (Message "Equity allocation aligns with your asset allocation strategy" []) t
    else t in
  let t :=
    if contains "Balanced" sip_name
       && ((30 <=? equity asset_allocation) && (equity asset_allocation <=? 70)) then
      award 3 (Message "Balanced fund perfectly suits your moderate asset allocation" []) t
    else t in
  let t :=
    if contains "Debt" sip_name && (40 <? debt asset_allocation) then
      award 2 (Message "Debt allocation aligns with your asset allocation strategy" []) t
    else t in
  if contains "ELSS" sip_name || contains "Tax" sip_name then
    if (6 <=? risk_tolerance)%Z then
      award 2 (Message "ELSS provides tax benefits under Section 80C" []) t
    else
      award (-1) (Message "ELSS may be too risky for your profile despite tax benefits" []) t
  else t.

(** Lines 1006-1013. *)
Definition sip_minimum_investment (recommended_monthly_investment : Q) (sip : dict value)
    (t : tally) : result tally :=
  if is_not_none (field sip "min_investment") then
    tripled <- mul_int (field sip "min_investment") 3 ;;
    covers <- num_ge recommended_monthly_investment tripled ;;
    if covers then
      ok (award 1 (Message "Your monthly investment capacity easily covers the minimum requirement" []) t)
    else
      short <- num_lt recommended_monthly_investment (field sip "min_investment") ;;
      ok (if short then
            award (-3) (Message "Minimum investment of ₹{sip['min_investment']} exceeds your monthly capacity"
                          [field sip "min_investment"]) t
          else t)
  else ok t.

(** An entry of [sip_scores]. *)
Record sip_entry : Type := {
  si_name : string;
  si_risk_level : value;
  si_min_investment : value;
  si_recommended_duration : value;
  si_expected_returns : value;
  si_tax_benefits : value;
  si_score : Q;
  si_reasons : list message
}.

Definition score_sip (p : profile) (recommended_monthly_investment : Q)
    (asset_allocation : asset_allocation) (sip_name : string) (sip : dict value)
  : result sip_entry :=
  let risk_tolerance := risk_tolerance p in
  let investment_horizon := investment_horizon p in
  let t : tally := (0, []) in
  t <- sip_risk_alignment risk_tolerance sip t ;;
  let t := sip_horizon_alignment investment_horizon sip t in
  let t := sip_allocation_alignment risk_tolerance asset_allocation sip_name t in
  t <- sip_minimum_investment recommended_monthly_investment sip t ;;
  ok {| si_name := sip_name;
        si_risk_level := field sip "risk_level";
        si_min_investment := field sip "min_investment";
        si_recommended_duration := field sip "recommended_duration";
        si_expected_returns := field sip "expected_returns";
        si_tax_benefits := get_or sip "tax_benefits" (VStr "No");
        si_score := fst t;
        si_reasons := snd t |}.

Record sip_recommendation : Type := {
  sp_name : string;
  sp_risk_level : value;
  sp_monthly_amount : value;
  sp_min_investment : value;
  sp_expected_returns : value;
  sp_tax_benefits : value;
  sp_reason : list message
}.

(** [sum(sip["score"] for sip in top_sips) if top_sips else 1]. *)
Definition total_allocation_of (top_sips : list sip_entry) : Q :=
  match top_sips with
  | [] => 1
  | _ => fold_left Qplus (map si_score top_sips) 0
  end.

(** Lines 1039-1059: the suggested monthly amount and the output record. *)
Definition format_sip (recommended_monthly_investment total_allocation : Q)
    (sip : sip_entry) : result sip_recommendation :=
  let allocation_ratio :=
    if 0 <? total_allocation then si_score sip / total_allocation else 0.2 in
  let suggested_monthly :=
    Py.round (recommended_monthly_investment * allocation_ratio) (-2) in
  undercut <- and_then (truthy (si_min_investment sip))
                (num_lt suggested_monthly (si_min_investment sip)) ;;
  let suggested_monthly :=
    if undercut then si_min_investment sip else VNum suggested_monthly in
  ok {| sp_name := si_name sip;
        sp_risk_level := si_risk_level sip;
        sp_monthly_amount := suggested_monthly;
        sp_min_investment := si_min_investment sip;
        sp_expected_returns := si_expected_returns sip;
        sp_tax_benefits := si_tax_benefits sip;
        sp_reason := top_reasons 2 (si_reasons sip) |}.

Record sip_args : Type := {
  pa_profile : profile;
  pa_sip_data : dict (dict value)
}.

(** The part of [recommend_sip] between its two log lines. *)
Definition sip_recommendations (p : profile) (sip_data : dict (dict value))
  : result (list sip_recommendation) :=
  let capacity := calculate_investment_capacity p in
  let recommended_monthly_investment := recommended_monthly_investment capacity in
  let asset_allocation := determine_asset_allocation p in
  sip_scores <-
    for_each sip_data
      (fun '(sip_name, sip) sip_scores =>
         entry <- score_sip p recommended_monthly_investment asset_allocation sip_name sip ;;
         ok (set sip_scores sip_name entry))
      [] ;;
  let sorted_sips := sorted_desc si_score (values sip_scores) in
  let top_sips := firstn 5 sorted_sips in
  let total_allocation := total_allocation_of top_sips in
  for_each top_sips
    (fun sip recommendations =>
       r <- format_sip recommended_monthly_investment total_allocation sip ;;
       ok (recommendations ++ [r]))
    [].

Definition recommend_sip : Run.M sip_args (result (list sip_recommendation)) :=
  Run.logger Run.INFO (Message "Generating SIP recommendations" []) ;;;
  a <~ Run.arguments ;;
  match sip_recommendations (pa_profile a) (pa_sip_data a) with
  | inl e => Run.ret (inl e)
  | inr recommendations =>
      Run.logger Run.INFO
        (Message "Generated {len(recommendations)} SIP recommendations"
           [VNum (inject_Z (Z.of_nat (List.length recommendations)))]) ;;;
      Run.ret (inr recommendations)
  end.

(** ** get_risk_management_tips *)

(** Lines 1082-1134: the tips, in the order they are appended. *)
Definition risk_management_tips (p : profile) : list string :=
  let risk_tolerance := risk_tolerance p in
  let investment_horizon := investment_horizon p in
  let monthly_income := monthly_income p in
  let monthly_expense := monthly_expense p in
  let current_debt := current_debt p in
  let tips : list string := [] in
  let tips := tips ++ ["Always maintain an emergency fund of at least 6 months of expenses."] in
  let tips := tips ++ ["Diversify your investments across asset classes to reduce risk."] in
  let debt_to_income :=
    if 0 <? monthly_income
    then Py.Finite (current_debt / (monthly_income * 12))
    else Py.Infinity in
  let tips :=
    if Py.xgt debt_to_income 0.5 then
      tips ++ ["Your debt level is high. Consider prioritizing debt reduction before increasing investments."]
           ++ ["Focus on high-interest debt first to reduce interest costs."]
    else tips in
  let savings_rate :=
    if 0 <? monthly_income
    then (monthly_income - monthly_expense) / monthly_income
    else 0 in
  let tips :=
    if savings_rate <? 0.2 then
      tips ++ ["Your savings rate is low. Try to increase it to at least 20% of income for long-term financial security."]
    else tips in
  let tips := tips ++ ["Ensure you have adequate health and term life insurance before investing."] in
  let tips :=
    if (investment_horizon <? 3)%Z then
      tips ++ ["For short-term goals, prioritize capital preservation over returns. Avoid high-risk investments."]
           ++ ["Consider liquid funds and short-term debt funds for goals within 1-3 years."]
    else if (investment_horizon <? 7)%Z then
      tips ++ ["For medium-term goals (3-7 years), consider a balanced approach with a mix of equity and debt."]
           ++ ["Use SIPs to average out market volatility over your investment period."]
    else
      tips ++ ["For long-term goals (7+ years), equity exposure can be higher as you have time to ride out market fluctuations."]
           ++ ["Consider index funds for long-term core equity exposure with lower expense ratios."] in
  let tips :=
    if (risk_tolerance <=? 3)%Z then
      tips ++ ["With your conservative risk profile, focus on capital preservation with larger allocation to debt and high-quality large-cap stocks."]
           ++ ["Consider regular portfolio rebalancing to ensure risk levels don't exceed your comfort zone."]
    else if (risk_tolerance <=? 7)%Z then
      tips ++ ["With your moderate risk profile, maintain a balanced portfolio with regular rebalancing."]
           ++ ["Consider reducing equity exposure if approaching financial goals within 2-3 years."]
    else
      tips ++ ["With your aggressive risk profile, still ensure at least 10-15% in less volatile assets as a safety cushion."]
           ++ ["Set strict stop-loss limits for high-risk investments to prevent major losses."] in
  let tips := tips ++ ["Consider tax-efficient investment options like ELSS funds for equity and debt funds held for over 3 years."] in
  let tips := tips ++ ["Utilize tax-saving options under Section 80C, 80D, and other applicable deductions."] in
  let tips := tips ++ ["Avoid timing the market; instead, focus on time in the market through disciplined investing."] in
  let tips := tips ++ ["Don't chase past performance blindly; assess if the investment strategy aligns with your goals."] in
  let tips := tips ++ ["Review your portfolio at least quarterly, but avoid frequent changes based on short-term market movements."] in
  let tips := tips ++ ["Reassess your risk profile and investment strategy annually or after major life events."] in
  tips.

Definition get_risk_management_tips : Run.M profile (list string) :=
  Run.logger Run.INFO (Message "Generating risk management tips" []) ;;;
  p <~ Run.arguments ;;
  let tips := risk_management_tips p in
  Run.logger Run.INFO
    (Message "Generated {len(tips)} risk management tips"
       [VNum (inject_Z (Z.of_nat (List.length tips)))]) ;;;
  Run.ret tips.

End Engine.

(** ** recommendation_system.py: from the stored profile to the canonical one *)

Module System.

Import Py.
Local Open Scope py_scope.
Local Open Scope string_scope.
Local Open Scope list_scope.
Local Open Scope Q_scope.

(** [int(x)] on a number: truncation towards zero. *)
Definition int_num (q : Q) : Z := Z.quot (Qnum q) (Zpos (Qden q)).

(** [int(v)]. *)
Definition int (v : value) : result Z :=
  match v with
  | VNone => raise TypeError
  | VNum q => ok (int_num q)
  | VStr s => int_str s
  end.

(** [re.search(r'(\d+)', s)]: the first run of decimal digits. *)
Fixpoint first_number (s : string) : option Z :=
  match s with
  | EmptyString => None
  | String c s' =>
      if is_digit c then Some (fst (fst (read_digits s 0 0))) else first_number s'
  end.

(** Lines 283-299 of [generate_stock_recommendations]. *)
Definition horizon_value_of (investment_horizon : value) : result Z :=
  match investment_horizon with
  | VStr s =>
      if contains "short" (lower s) then ok 2%Z
      else if contains "medium" (lower s) then ok 5%Z
      else if contains "long" (lower s) then ok 10%Z
      else
        match first_number s with
        | Some z => ok z
        | None => ok 5%Z
        end
  | v => int v
  end.

Definition risk_words : dict Z :=
  [("low", 3); ("conservative", 3); ("medium", 5); ("moderate", 5);
   ("high", 8); ("aggressive", 8)]%Z.

(** Lines 301-308 of [generate_stock_recommendations]; the same lines
    are in the three other [generate_*_recommendations]. *)
Definition risk_value_of (risk_tolerance : value) : result Z :=
  match risk_tolerance with
  | VStr s => ok (get_or risk_words (lower s) 5%Z)
  | v => int v
  end.

(** Lines 281-319: the canonical profile handed to the scorers. *)
Definition canonical_profile (profile_dict : dict value) : result Engine.profile :=
  horizon_value <- horizon_value_of (get_or profile_dict "investment_time_horizon" (VStr "5")) ;;
  risk_value <- risk_value_of (get_or profile_dict "risk_tolerance" (VStr "moderate")) ;;
  monthly_income <- float (get_or profile_dict "monthly_income" (VNum 0)) ;;
  monthly_expense <- float (get_or profile_dict "monthly_expenses" (VNum 0)) ;;
  current_savings <- float (get_or profile_dict "current_savings" (VNum 0)) ;;
  existing_investments <- float (get_or profile_dict "existing_investments" (VNum 0)) ;;
  current_debt <- float (get_or profile_dict "current_debt" (VNum 0)) ;;
  ok {| Engine.monthly_income := monthly_income;
        Engine.monthly_expense := monthly_expense;
        Engine.current_savings := current_savings;
        Engine.existing_investments := existing_investments;
        Engine.current_debt := current_debt;
        Engine.investment_horizon := horizon_value;
        Engine.risk_tolerance := risk_value |}.

(** Lines 63-66 of [get_user_financial_profile]: the validation of the
    risk tolerance typed at the prompt. *)
Definition validated_risk_tolerance (risk_tolerance : Z) : Z :=
  if ((risk_tolerance <? 1) || (10 <? risk_tolerance))%Z
  then Z.max 1 (Z.min risk_tolerance 10)
  else risk_tolerance.

(** ** generate_portfolio_guidance *)

(** Lines 111-123: the risk score of the guidance. *)
Definition guidance_risk_score (profile : dict value) : result Z :=
  match field profile "risk_tolerance" with
  | VStr s =>
      let risk_str := lower s in
      ok (if String.eqb risk_str "low" || String.eqb risk_str "conservative" then 3
          else if String.eqb risk_str "moderate" then 5
          else if String.eqb risk_str "high" || String.eqb risk_str "aggressive" then 8
          else 5)%Z
  | _ => int (get_or profile "risk_tolerance" (VNum 5))
  end.

(** Lines 126-136: the horizon of the guidance, in years. *)
Definition guidance_horizon_years (profile : dict value) : result Z :=
  match field profile "investment_horizon" with
  | VStr s =>
      let horizon_str := lower s in
      match first_number horizon_str with
      | Some z => ok z
      | None => ok 5%Z
      end
  | _ => int (get_or profile "investment_horizon" (VNum 5))
  end.

(** Line 143. *)
Definition guidance_equity_percent (risk_score horizon_years : Z) : Z :=
  Z.min 90 (Z.max 30 (risk_score * 7 + horizon_years * 2)).

Record portfolio_guidance : Type := {
  pg_asset_allocation : dict message;
  pg_equity_allocation : dict string;
  pg_investment_strategies : list string
}.

Definition generate_portfolio_guidance (profile : dict value) : result portfolio_guidance :=
  risk_score <- guidance_risk_score profile ;;
  horizon_years <- guidance_horizon_years profile ;;
  let equity_percent := guidance_equity_percent risk_score horizon_years in
  let debt_percent := (100 - equity_percent)%Z in
  let asset_allocation : dict message := [] in
  let asset_allocation :=
    set asset_allocation "Equity"
      (Message "{equity_percent}%" [VNum (inject_Z equity_percent)]) in
  let asset_allocation :=
    set asset_allocation "Debt"
      (Message "{debt_percent}%" [VNum (inject_Z debt_percent)]) in
  let equity_allocation : dict string :=
    if (risk_score <=? 3)%Z then
      [("Large Cap", "70%"); ("Mid Cap", "20%"); ("Small Cap", "10%")]
    else if (risk_score <=? 7)%Z then
      [("Large Cap", "50%"); ("Mid Cap", "30%"); ("Small Cap", "20%")]
    else
      [("Large Cap", "30%"); ("Mid Cap", "40%"); ("Small Cap", "30%")] in
  let strategies :=
    ["Regular investments through SIPs";
     "Maintain an emergency fund of 6 months' expenses"] in
  let strategies :=
    if (risk_score <=? 3)%Z then
      strategies ++ ["Focus on blue-chip stocks with stable dividends";
                     "Prefer liquid debt funds for safer returns";
                     "Consider corporate bonds from highly rated companies"]
    else if (risk_score <=? 7)%Z then
      strategies ++ ["Balanced mix of growth and value stocks";
                     "Consider hybrid funds for diversification";
                     "Tactical allocation between equity and debt based on market conditions"]
    else
      strategies ++ ["Focus on growth stocks with long-term potential";
                     "Consider thematic and sectoral funds";
                     "Look for high-growth small and mid-cap opportunities"] in
  ok {| pg_asset_allocation := asset_allocation;
        pg_equity_allocation := equity_allocation;
        pg_investment_strategies := strategies |}.

(** ** generate_recommendations *)

(** The argument objects of a [generate_recommendations] call. *)
Record recommendation_args : Type := {
  ra_profile : Engine.profile;
  ra_stock_data : dict (dict (dict value));
  ra_mf_data : dict (dict value);
  ra_commodity_data : dict (dict value);
  ra_sip_data : dict (dict value);
  ra_sentiment_data : dict (dict (dict value))
}.

Record recommendations : Type := {
  rc_stocks : list Engine.stock_recommendation;
  rc_mutual_funds : list Engine.fund_recommendation;
  rc_commodities : list Engine.commodity_recommendation;
  rc_sip : list Engine.sip_recommendation;
  rc_risk_management : list string
}.

Local Open Scope run_scope.

(** Lines 74-99.  The five entries of the dict display are evaluated in
    order; an exception of [recommend_sip] leaves the function before
    the tips are asked for, and before anything is returned. *)
Definition generate_recommendations : Run.M recommendation_args (result recommendations) :=
  Run.logger Run.INFO (Message "Generating personalized recommendations" []) ;;;
  stocks <~ Run.local
              (fun a => {| Engine.sa_profile := ra_profile a;
                           Engine.sa_stock_data := ra_stock_data a;
                           Engine.sa_sentiment_data := ra_sentiment_data a |})
              Engine.recommend_stocks ;;
  mutual_funds <~ Run.local
                    (fun a => {| Engine.fa_profile := ra_profile a;
                                 Engine.fa_mutual_fund_data := ra_mf_data a |})
                    Engine.recommend_mutual_funds ;;
  commodities <~ Run.local
                   (fun a => {| Engine.ca_profile := ra_profile a;
                                Engine.ca_commodity_data := ra_commodity_data a |})
                   Engine.recommend_commodities ;;
  sip <~ Run.local
           (fun a => {| Engine.pa_profile := ra_profile a;
                        Engine.pa_sip_data := ra_sip_data a |})
           Engine.recommend_sip ;;
  match sip with
  | inl e => Run.ret (inl e)
  | inr sip =>
      risk_management <~ Run.local ra_profile Engine.get_risk_management_tips ;;
      Run.ret (inr {| rc_stocks := stocks;
                      rc_mutual_funds := mutual_funds;
                      rc_commodities := commodities;
                      rc_sip := sip;
                      rc_risk_management := risk_management |})
  end.

End System.

(** * Properties *)

Import Py Engine.

(** ** Inputs used in the statements *)

Module Examples.

Local Open Scope string_scope.
Local Open Scope Q_scope.

(** The profile of the capacity example. *)
Definition example_profile : profile :=
  {| monthly_income := 50000;
     monthly_expense := 30000;
     current_savings := 100000;
     existing_investments := 200000;
     current_debt := 50000;
     investment_horizon := 5;
     risk_tolerance := 5 |}.

(** The fundamental record of the scoring example. *)
Definition example_fundamentals : dict value :=
  [("pe_ratio", VNum 12); ("roe", VNum 22); ("debt_to_equity", VNum 0.25);
   ("eps", VNum 60); ("dividend_yield", VNum 5); ("profit_growth", VNum 35)].

(** Technical records for the same stock: the price is 20% above its
    50-day average; the second record also has an RSI that is text. *)
Definition example_technicals : dict value :=
  [("current_price", VNum 100); ("price_to_ma50", VNum 1.2)].

Definition example_technicals_text_rsi : dict value :=
  [("current_price", VNum 100); ("price_to_ma50", VNum 1.2); ("rsi", VStr "N/A")].

Definition stock_call (tech : dict value) : stock_args :=
  {| sa_profile := example_profile;
     sa_stock_data :=
       [("technical", [("ABC", tech)]); ("fundamental", [("ABC", example_fundamentals)])];
     sa_sentiment_data := [] |}.

(** Six plans with numeric fields only. *)
Definition example_sip_data : dict (dict value) :=
  [("Equity Growth SIP",
    [("min_investment", VNum 1000); ("risk_level", VStr "High");
     ("recommended_duration", VNum 5)]);
   ("Debt Income SIP",
    [("min_investment", VNum 1000); ("risk_level", VStr "Low");
     ("recommended_duration", VNum 3)]);
   ("Balanced Advantage SIP",
    [("min_investment", VNum 1000); ("risk_level", VStr "Medium");
     ("recommended_duration", VNum 4)]);
   ("ELSS Tax Saver SIP",
    [("min_investment", VNum 500); ("risk_level", VStr "High");
     ("recommended_duration", VNum 3)]);
   ("Liquid Fund SIP",
    [("min_investment", VNum 500); ("risk_level", VStr "Very Low");
     ("recommended_duration", VNum 1)]);
   ("Index SIP",
    [("min_investment", VNum 500); ("risk_rating", VNum 6);
     ("recommended_duration", VStr "5-10 years")])].

Definition sip_call (sip_data : dict (dict value)) : sip_args :=
  {| pa_profile := example_profile; pa_sip_data := sip_data |}.

(** A plan whose risk rating is text. *)
Definition example_sip_text_rating : dict (dict value) :=
  [("Index SIP", [("min_investment", VNum 500); ("risk_rating", VStr "6")])].

End Examples.

(** ** Definitions used to state the properties *)

Module Spec.

Local Open Scope Q_scope.

(** The points a signal adds to a fresh tally. *)
Definition points (signal : tally -> tally) : Q := fst (signal (0, [])).

(** Clamping [x] to the interval from [lo] to [hi]. *)
Definition clamp (x lo hi : Q) : Q :=
  if x <? lo then lo else if hi <? x then hi else x.

(** The strength of a stock recommendation as the specification words
    it: normalise the score between -3 and 25 to a 0-10 scale, boost by
    1.15, clamp to [1,10], round to one decimal. *)
Definition strength_formula (raw_score : Q) : Q :=
  Py.round (clamp (((raw_score - (-3)) / (25 - (-3))) * 10 * 1.15) 1 10) 1.






(** The three percentages of the returned allocation. *)
Definition allocation_total (a : asset_allocation) : Q :=
  equity a + debt a + commodities a.

(** A computation that only reads the argument objects and only appends
    to the log: given the arguments, its result and the lines it logs
    are fixed. *)
Definition reads_and_logs {I A} (c : Run.M I A) : Prop :=
  forall a : I, exists (x : A) (lines : list Run.log_record),
    forall lg, c {| Run.args := a; Run.logged := lg |}
               = (x, {| Run.args := a; Run.logged := lg ++ lines |}).

End Spec.

(** ** Notions used by the further properties *)

Module Notions.

(** A rational that is an integer. *)
Definition integral (q : Q) : Prop := q == inject_Z (Qfloor q).

(** The two tips of [get_risk_management_tips] that depend on the
    amounts of the profile. *)
Definition debt_tip : string :=
  "Your debt level is high. Consider prioritizing debt reduction before increasing investments.".


(** A profile with more debt than six months of income (or no income). *)
Definition debt_above_half_a_year (p : profile) : Prop :=
  monthly_income p <= 0 \/ 6 * monthly_income p < current_debt p.

(** A list in descending order of a key. *)
Fixpoint descending {A} (key : A -> Q) (l : list A) : Prop :=
  match l with
  | [] => True
  | x :: l' => (forall y, In y l' -> key y <= key x) /\ descending key l'
  end.

(** A value that is text. *)
Definition is_text (v : value) : bool :=
  match v with
  | VStr _ => true
  | _ => false
  end.

(** A SIP plan whose minimum investment is not text, and whose risk
    rating is not text when the plan has no risk level. *)
Definition sip_readable (sip : dict value) : bool :=
  negb (is_text (field sip "min_investment"))
  && (is_not_none (field sip "risk_level") || negb (is_text (field sip "risk_rating"))).









End Notions.

Import Notions.

(** ** The sample data of data_collection.py *)

Module Samples.

Local Open Scope string_scope.
Local Open Scope list_scope.
Local Open Scope Q_scope.

(** The two sample funds (data_collection.py, lines 703-730). *)
Definition sample_mutual_fund_data : dict (dict value) :=
  [("119551",
    [("scheme_code", VStr "119551");
     ("name", VStr "Axis Bluechip Fund - Direct Plan - Growth");
     ("category", VStr "Equity");
     ("scheme_type", VStr "Open Ended Schemes");
     ("nav", VNum 45.21);
     ("aum_crores", VNum 2500.75);
     ("expense_ratio", VNum 0.45);
     ("one_year_return", VNum 12.5);
     ("three_year_return", VNum 10.2);
     ("five_year_return", VNum 9.5);
     ("risk_rating", VNum 8)]);
   ("119775",
    [("scheme_code", VStr "119775");
     ("name", VStr "HDFC Corporate Bond Fund - Direct Plan - Growth");
     ("category", VStr "Debt");
     ("scheme_type", VStr "Open Ended Schemes");
     ("nav", VNum 28.36);
     ("aum_crores", VNum 3200.50);
     ("expense_ratio", VNum 0.35);
     ("one_year_return", VNum 7.2);
     ("three_year_return", VNum 8.1);
     ("five_year_return", VNum 7.8);
     ("risk_rating", VNum 4)])].

(** The five sample commodities (data_collection.py, lines 810-816). *)
Definition sample_commodity_data : dict (dict value) :=
  [("Gold", [("current_price", VNum 58750); ("day_change", VNum 0.12);
             ("unit", VStr "per 10 grams")]);
   ("Silver", [("current_price", VNum 72500); ("day_change", VNum 0.28);
               ("unit", VStr "per kg")]);
   ("Crude Oil", [("current_price", VNum 6090); ("day_change", VNum (-0.52));
                  ("unit", VStr "per barrel")]);
   ("Natural Gas", [("current_price", VNum 245); ("day_change", VNum 0.75);
                    ("unit", VStr "per mmBtu")]);
   ("Copper", [("current_price", VNum 776); ("day_change", VNum 0.14);
               ("unit", VStr "per kg")])].



End Samples.

(** ** Arithmetic of the Python fragment *)

Section Arithmetic.

Lemma Qltb_lt (x y : Q) : (x <? y) = true <-> x < y.
Proof.
  unfold Qltb. rewrite negb_true_iff.
  split; intros H.
  - apply Qnot_le_lt. intros Hle. apply Qle_bool_iff in Hle. congruence.
  - destruct (Qle_bool y x) eqn:E; [|reflexivity].
    apply Qle_bool_iff in E. exfalso. exact (Qlt_not_le _ _ H E).
Qed.

Lemma Qltb_ge (x y : Q) : (x <? y) = false <-> y <= x.
Proof.
  unfold Qltb. rewrite negb_false_iff. apply Qle_bool_iff.
Qed.

Lemma Qleb_le (x y : Q) : (x <=? y) = true <-> x <= y.
Proof. apply Qle_bool_iff. Qed.

Lemma Qleb_gt (x y : Q) : (x <=? y) = false <-> y < x.
Proof.
  unfold Qleb. split; intros H.
  - apply Qnot_le_lt. intros Hle. apply Qle_bool_iff in Hle. congruence.
  - destruct (Qle_bool x y) eqn:E; [|reflexivity].
    apply Qle_bool_iff in E. exfalso. exact (Qlt_not_le _ _ H E).
Qed.

Lemma min_cases (a b : Q) : (b < a /\ Py.min a b = b) \/ (a <= b /\ Py.min a b = a).
Proof.
  unfold Py.min. destruct (b <? a) eqn:E.
  - left. split; [now apply Qltb_lt | reflexivity].
  - right. split; [now apply Qltb_ge | reflexivity].
Qed.

Lemma max_cases (a b : Q) : (a < b /\ Py.max a b = b) \/ (b <= a /\ Py.max a b = a).
Proof.
  unfold Py.max. destruct (a <? b) eqn:E.
  - left. split; [now apply Qltb_lt | reflexivity].
  - right. split; [now apply Qltb_ge | reflexivity].
Qed.

#[global] Instance round_half_even_comp : Proper (Qeq ==> eq) round_half_even.
Proof.
  intros x y E. unfold round_half_even.
  rewrite (Qfloor_comp _ _ E).
  assert (Hc : (x - inject_Z (Qfloor y) ?= 1 # 2) = (y - inject_Z (Qfloor y) ?= 1 # 2)).
  { apply Qcompare_comp; [rewrite E|]; reflexivity. }
  rewrite Hc. reflexivity.
Qed.

#[global] Instance round_comp : Proper (Qeq ==> eq ==> Qeq) Py.round.
Proof.
  intros x y E n ? <-. unfold Py.round.
  destruct (0 <=? n)%Z.
  - assert (H : x * pow10 n == y * pow10 n) by (rewrite E; reflexivity).
    rewrite (round_half_even_comp _ _ H). reflexivity.
  - assert (H : x / pow10 (- n) == y / pow10 (- n)) by (rewrite E; reflexivity).
    rewrite (round_half_even_comp _ _ H). reflexivity.
Qed.

(** The nearest integer is within the integers that bracket the number. *)
Lemma round_half_even_bounds (q : Q) (lo hi : Z) :
  inject_Z lo <= q -> q <= inject_Z hi ->
  (lo <= round_half_even q <= hi)%Z.
Proof.
  intros Hlo Hhi.
  assert (Hf1 : (lo <= Qfloor q)%Z).
  { rewrite <- (Qfloor_Z lo). now apply Qfloor_resp_le. }
  assert (Hf2 : (Qfloor q <= hi)%Z).
  { rewrite <- (Qfloor_Z hi). now apply Qfloor_resp_le. }
  unfold round_half_even.
  destruct (q - inject_Z (Qfloor q) ?= 1 # 2) eqn:E.
  - destruct (Z.even (Qfloor q)); [lia|].
    apply Qeq_alt in E.
    assert (Hlt : (Qfloor q < hi)%Z).
    { destruct (Z.eq_dec (Qfloor q) hi) as [Heq|]; [|lia].
      exfalso. rewrite Heq in E.
      assert (q - inject_Z hi <= 0) by lra. lra. }
    lia.
  - lia.
  - apply Qgt_alt in E.
    assert (Hlt : (Qfloor q < hi)%Z).
    { destruct (Z.eq_dec (Qfloor q) hi) as [Heq|]; [|lia].
      exfalso. rewrite Heq in E. lra. }
    lia.
Qed.

End Arithmetic.

(** Boolean comparisons in the context, as order facts; the four
    arguments are the lemmas for [<?] and [<=?], true and false. *)
Ltac order_facts lt_true lt_false le_true le_false :=
  repeat match goal with
         | H : (_ <? _) = true |- _ => apply lt_true in H
         | H : (_ <? _) = false |- _ => apply lt_false in H
         | H : (_ <=? _) = true |- _ => apply le_true in H
         | H : (_ <=? _) = false |- _ => apply le_false in H
         end.

(** ** Capacity and allocation *)

Section Allocation.

Local Open Scope Q_scope.

(** Whatever the path taken, debt is [100 - equity - 5] and commodities
    are [5]. *)
Lemma base_allocation_shape (p : profile) :
  exists e : Q, base_allocation p = (e, 100 - e - 5, 5).
Proof.
  unfold base_allocation.
  destruct (inject_Z (investment_horizon p) <? 3); eexists; reflexivity.
Qed.

Lemma base_allocation_total (p : profile) :
  let '(e, d, c) := base_allocation p in e + d + c == 100.
Proof.
  destruct (base_allocation_shape p) as [e ->]. ring.
Qed.

(** From eleven years on the horizon factor is capped, and the
    short-horizon adjustment is off. *)
Lemma base_allocation_long_horizon (p : profile) :
  (11 <= investment_horizon p)%Z ->
  base_allocation p =
  base_allocation {| monthly_income := monthly_income p;
                     monthly_expense := monthly_expense p;
                     current_savings := current_savings p;
                     existing_investments := existing_investments p;
                     current_debt := current_debt p;
                     investment_horizon := 11;
                     risk_tolerance := risk_tolerance p |}.
Proof.
  intros H. unfold base_allocation. cbn [investment_horizon risk_tolerance].
  assert (H1 : Py.min (inject_Z (investment_horizon p) / 2) 5 = 5).
  { unfold Py.min.
    assert (E : (5 <? inject_Z (investment_horizon p) / 2) = true).
    { apply Qltb_lt. unfold Qlt, Qdiv, Qmult, Qinv, inject_Z. simpl. lia. }
    now rewrite E. }
  assert (H2 : (inject_Z (investment_horizon p) <? 3) = false).
  { apply Qltb_ge. unfold Qle, inject_Z. simpl. lia. }
  rewrite H1, H2. reflexivity.
Qed.

Lemma determine_asset_allocation_long_horizon (p : profile) :
  (11 <= investment_horizon p)%Z ->
  determine_asset_allocation p =
  determine_asset_allocation {| monthly_income := monthly_income p;
                                monthly_expense := monthly_expense p;
                                current_savings := current_savings p;
                                existing_investments := existing_investments p;
                                current_debt := current_debt p;
                                investment_horizon := 11;
                                risk_tolerance := risk_tolerance p |}.
Proof.
  intros H. unfold determine_asset_allocation.
  rewrite (base_allocation_long_horizon p H). reflexivity.
Qed.

(** On the documented range of risk tolerance the rounded percentages
    add up to 100 exactly. *)
Lemma allocation_total_exact (p : profile) :
  (1 <= risk_tolerance p <= 10)%Z -> (0 <= investment_horizon p)%Z ->
  Spec.allocation_total (determine_asset_allocation p) == 100.
Proof.
  intros Hr Hh.
  assert (Hcases : (investment_horizon p <= 10 \/ 11 <= investment_horizon p)%Z) by lia.
  destruct Hcases as [Hs | Hl].
  - destruct p as [mi me cs ei cd h r]. cbn [risk_tolerance investment_horizon] in *.
    assert (Er : (r = 1 \/ r = 2 \/ r = 3 \/ r = 4 \/ r = 5 \/ r = 6 \/ r = 7 \/ r = 8
                  \/ r = 9 \/ r = 10)%Z) by lia.
    assert (Eh : (h = 0 \/ h = 1 \/ h = 2 \/ h = 3 \/ h = 4 \/ h = 5 \/ h = 6 \/ h = 7
                  \/ h = 8 \/ h = 9 \/ h = 10)%Z) by lia.
    repeat (destruct Er as [-> | Er]);
      repeat (destruct Eh as [-> | Eh]); subst; vm_compute; reflexivity.
  - rewrite (determine_asset_allocation_long_horizon p Hl).
    destruct p as [mi me cs ei cd h r]. cbn [risk_tolerance investment_horizon] in *.
    assert (Er : (r = 1 \/ r = 2 \/ r = 3 \/ r = 4 \/ r = 5 \/ r = 6 \/ r = 7 \/ r = 8
                  \/ r = 9 \/ r = 10)%Z) by lia.
    repeat (destruct Er as [-> | Er]); subst; vm_compute; reflexivity.
Qed.

(** C1. For every profile with an integer risk tolerance in [1,10] and an
    integer investment horizon of at least 0, the equity, debt and
    commodities percentages returned by [determine_asset_allocation], each
    rounded to 2 decimals, add up to 100 within a tolerance of 0.01. *)
Theorem allocation_sums_to_100 (p : profile) :
  (1 <= risk_tolerance p <= 10)%Z -> (0 <= investment_horizon p)%Z ->
  Qabs (equity (determine_asset_allocation p)
        + debt (determine_asset_allocation p)
        + commodities (determine_asset_allocation p) - 100) <= 0.01.
Proof.
  intros Hr Hh.
  pose proof (allocation_total_exact p Hr Hh) as E. unfold Spec.allocation_total in E.
  rewrite E. vm_compute. discriminate.
Qed.

Lemma allocation_sums_to_100_witness :
  Qabs (equity (determine_asset_allocation Examples.example_profile)
        + debt (determine_asset_allocation Examples.example_profile)
        + commodities (determine_asset_allocation Examples.example_profile) - 100) <= 0.01.
Proof.
  apply (allocation_sums_to_100 Examples.example_profile); simpl; lia.
Defined.



(** C5. On the example profile [calculate_investment_capacity] returns a
    monthly surplus of 20000 and a debt-to-income ratio of 1.0, takes the
    branch of a ratio above 0.5, and recommends 6000 of monthly
    investment and 14000 of debt payment. *)
Theorem capacity_example :
  let c := calculate_investment_capacity Examples.example_profile in
  monthly_surplus c == 20000
  /\ (exists ratio, debt_to_income_ratio c = Py.Finite ratio /\ ratio == 1)
  /\ Py.xgt (debt_to_income_ratio c) 0.5 = true
  /\ recommended_monthly_investment c == 6000
  /\ debt_payment_recommendation c == 14000.
Proof.
  cbv zeta. repeat split.
  - eexists. split; [reflexivity | reflexivity].
Qed.

End Allocation.

(** ** The stock scorer *)

Section Stocks.

Local Open Scope string_scope.
Local Open Scope list_scope.
Local Open Scope Q_scope.

(** C6. A candidate whose fundamental record has exactly pe_ratio 12,
    roe 22, debt_to_equity 0.25, eps 60, dividend_yield 5 and
    profit_growth 35, with no sentiment entry for its sector, gets a
    fundamental score of 26: 4 for the P/E tier, 5 for ROE, 4 for
    debt-to-equity, 4 for EPS, 3 for dividend yield, 5 for profit growth
    and 1 for complete data; industry P/E, market cap and sector
    sentiment add nothing. *)
Theorem fundamental_score_example
    (p : profile) (sector_sentiment : dict (dict value)) (symbol : string) :
  has_key sector_sentiment "Unknown" = false ->
  let fund := Examples.example_fundamentals in
  fe_score (fundamental_analysis p sector_sentiment symbol fund) == 26
  /\ Spec.points (pe_ratio_analysis fund) == 4
  /\ Spec.points (roe_analysis fund) == 5
  /\ Spec.points (debt_to_equity_analysis fund) == 4
  /\ Spec.points (eps_analysis fund) == 4
  /\ Spec.points (dividend_yield_analysis fund) == 3
  /\ Spec.points (profit_growth_analysis fund) == 5
  /\ Spec.points (complete_data_bonus fund) == 1
  /\ Spec.points (industry_pe_comparison fund) == 0
  /\ Spec.points (fun t => snd (market_cap_analysis p fund t)) == 0
  /\ Spec.points (sector_evaluation sector_sentiment (get_or fund "sector" (VStr "Unknown"))) == 0.
Proof.
  intros H fund.
  assert (S : forall t, sector_evaluation sector_sentiment (VStr "Unknown") t = t).
  { intros t. unfold sector_evaluation. now rewrite H. }
  split.
  - unfold fundamental_analysis.
    change (get_or fund "sector" (VStr "Unknown")) with (VStr "Unknown").
    change (market_cap_analysis p fund) with (fun t : tally => ("Unknown", t)).
    cbv beta iota. rewrite S. reflexivity.
  - repeat (split; [reflexivity|]).
    unfold Spec.points.
    change (get_or fund "sector" (VStr "Unknown")) with (VStr "Unknown").
    rewrite S. reflexivity.
Qed.

Lemma fundamental_score_example_witness :
  fe_score (fundamental_analysis Examples.example_profile [] "ABC"
              Examples.example_fundamentals) == 26.
Proof.
  apply (fundamental_score_example Examples.example_profile [] "ABC"). reflexivity.
Defined.

(** The output of the scorer is made of formatted entries. *)
Lemma recommend_stocks_formatted (w : Run.world stock_args) (r : stock_recommendation) :
  In r (fst (recommend_stocks w)) -> exists stock, r = format_stock stock.
Proof.
  unfold recommend_stocks, Run.bind, Run.logger, Run.arguments, Run.ret.
  cbn [Run.args Run.logged].
  destruct (filter _ _); [intros []|].
  destruct (Run.for_each _ _ _ _) as [fundamental_scores w1].
  destruct (firstn 25 _); [intros []|].
  destruct (Run.for_each _ _ _ _) as [stock_scores w2].
  destruct (firstn 8 _) eqn:E; [intros []|].
  cbn [fst]. intros H. apply in_map_iff in H. destruct H as [stock [<- _]].
  now exists stock.
Qed.

Lemma recommend_stocks_length (w : Run.world stock_args) :
  (List.length (fst (recommend_stocks w)) <= 8)%nat.
Proof.
  unfold recommend_stocks, Run.bind, Run.logger, Run.arguments, Run.ret.
  cbn [Run.args Run.logged].
  destruct (filter _ _); [cbn; lia|].
  destruct (Run.for_each _ _ _ _) as [fundamental_scores w1].
  destruct (firstn 25 _); [cbn; lia|].
  destruct (Run.for_each _ _ _ _) as [stock_scores w2].
  destruct (firstn 8 _) eqn:E; [cbn; lia|].
  cbn [fst]. rewrite length_map, <- E. apply firstn_le_length.
Qed.

(** The code's clamp, [max(1, min(10, x))], is the clamp to [1,10]. *)
Lemma max_min_clamp (x : Q) : Py.max 1 (Py.min 10 x) == Spec.clamp x 1 10.
Proof.
  unfold Py.max, Py.min, Spec.clamp.
  destruct (x <? 10) eqn:E1.
  - destruct (1 <? x) eqn:E4; destruct (x <? 1) eqn:E2; destruct (10 <? x) eqn:E3;
      order_facts Qltb_lt Qltb_ge Qleb_le Qleb_gt; first [lra | exfalso; lra].
  - change (1 <? 10) with true. cbv iota.
    destruct (x <? 1) eqn:E2; destruct (10 <? x) eqn:E3;
      order_facts Qltb_lt Qltb_ge Qleb_le Qleb_gt; first [lra | exfalso; lra].
Qed.

Lemma clamp_bounds (x : Q) : 1 <= Spec.clamp x 1 10 <= 10.
Proof.
  unfold Spec.clamp.
  destruct (x <? 1) eqn:E1; [lra|].
  destruct (10 <? x) eqn:E2; [lra|].
  apply Qltb_ge in E1, E2. lra.
Qed.

Lemma round_one_decimal_bounds (x : Q) : 1 <= x <= 10 -> 1 <= Py.round x 1 <= 10.
Proof.
  intros [H1 H2]. unfold Py.round. cbn [Z.leb Z.compare].
  change (pow10 1) with 10.
  destruct (round_half_even_bounds (x * 10) 10 100) as [L U].
  - change (inject_Z 10) with 10. lra.
  - change (inject_Z 100) with 100. lra.
  - assert (L' : inject_Z 10 <= inject_Z (round_half_even (x * 10)))
      by (rewrite <- Zle_Qle; exact L).
    assert (U' : inject_Z (round_half_even (x * 10)) <= inject_Z 100)
      by (rewrite <- Zle_Qle; exact U).
    change (inject_Z 10) with 10 in L'. change (inject_Z 100) with 100 in U'.
    split.
    + apply Qle_shift_div_l; [reflexivity | lra].
    + apply Qle_shift_div_r; [reflexivity | lra].
Qed.

Lemma strength_refines_formula (score : Q) :
  recommendation_strength_of score == Spec.strength_formula score.
Proof.
  unfold recommendation_strength_of, Spec.strength_formula,
    min_possible_score, max_possible_score.
  apply round_comp; [|reflexivity]. apply max_min_clamp.
Qed.

(** C3. Every recommendation returned by [recommend_stocks] has a
    strength equal to round(clamp(((raw_score - (-3)) / (25 - (-3))) * 10
    * 1.15, 1, 10), 1), and hence between 1.0 and 10.0. *)
Theorem recommendation_strength_in_range
    (w : Run.world stock_args) (r : stock_recommendation) :
  In r (fst (recommend_stocks w)) ->
  recommendation_strength r == Spec.strength_formula (raw_score r)
  /\ 1 <= recommendation_strength r <= 10.
Proof.
  intros H. apply recommend_stocks_formatted in H. destruct H as [stock ->].
  cbn [format_stock recommendation_strength raw_score].
  pose proof (strength_refines_formula (se_score stock)) as E.
  split; [exact E|].
  rewrite E. unfold Spec.strength_formula.
  apply round_one_decimal_bounds, clamp_bounds.
Qed.

Lemma recommendation_strength_in_range_witness :
  exists r,
    In r (Run.call recommend_stocks (Examples.stock_call Examples.example_technicals))
    /\ recommendation_strength r == Spec.strength_formula (raw_score r)
    /\ 1 <= recommendation_strength r <= 10.
Proof.
  unfold Run.call.
  destruct (fst (recommend_stocks
                   {| Run.args := Examples.stock_call Examples.example_technicals;
                      Run.logged := [] |})) as [|r l] eqn:E.
  - vm_compute in E. discriminate E.
  - exists r.
    assert (H : In r (fst (recommend_stocks
                             {| Run.args := Examples.stock_call Examples.example_technicals;
                                Run.logged := [] |}))).
    { rewrite E. left. reflexivity. }
    split; [left; reflexivity|].
    exact (recommendation_strength_in_range _ r H).
Defined.

(** C4, at the failing input.  The same stock is scored twice: with
    numeric technical fields it is recommended with a score of 29 (26
    fundamental points and 3 for the price above its 50-day average);
    with an RSI that is text the conversion raises inside the [try] of
    the technical phase, the handler logs and continues, and the stock is
    not in the ranking at all. *)
Theorem text_rsi_drops_candidate :
  (exists r,
      Run.call recommend_stocks (Examples.stock_call Examples.example_technicals) = [r]
      /\ raw_score r == 29)
  /\ technical_analysis Examples.example_profile
       [("ABC", Examples.example_fundamentals)]
       (fundamental_analysis Examples.example_profile [] "ABC" Examples.example_fundamentals)
       Examples.example_technicals_text_rsi = inl ValueError
  /\ Run.call recommend_stocks (Examples.stock_call Examples.example_technicals_text_rsi) = [].
Proof.
  split; [|split].
  - eexists. split; [vm_compute; reflexivity | reflexivity].
  - vm_compute. reflexivity.
  - vm_compute. reflexivity.
Qed.

(** For contrast, the fundamental phase guards each conversion: a P/E
    ratio that is text costs the stock the 4 points of that signal and
    nothing else. *)
Lemma text_pe_ratio_skips_one_signal :
  fe_score (fundamental_analysis Examples.example_profile [] "ABC"
              (set Examples.example_fundamentals "pe_ratio" (VStr "N/A"))) == 26 - 4.
Proof. reflexivity. Qed.

End Stocks.

(** ** How many recommendations a scorer returns *)

Section Counts.

Local Open Scope list_scope.

Lemma recommend_mutual_funds_length (w : Run.world fund_args) :
  (List.length (fst (recommend_mutual_funds w)) <= 7)%nat.
Proof.
  unfold recommend_mutual_funds, Run.bind, Run.logger, Run.arguments, Run.ret.
  cbn [Run.args Run.logged].
  destruct (Run.for_each _ _ _ _) as [fund_scores w1].
  cbn [fst]. rewrite length_map. apply firstn_le_length.
Qed.

Lemma recommend_commodities_length (w : Run.world commodity_args) :
  (List.length (fst (recommend_commodities w)) <= 3)%nat.
Proof.
  unfold recommend_commodities, Run.bind, Run.logger, Run.arguments, Run.ret.
  cbn [Run.args Run.logged].
  destruct (Run.for_each _ _ _ _) as [commodity_scores w1].
  cbn [fst]. rewrite length_map. apply firstn_le_length.
Qed.

(** A loop that appends one item per element returns as many items as
    it visited, on top of those it started with. *)
Lemma for_each_append_length {A B} (f : A -> result B) (l : list A) :
  forall acc out : list B,
    Py.for_each l (fun x acc => Py.bind (f x) (fun r => ok (acc ++ [r]))) acc = inr out ->
    List.length out = (List.length acc + List.length l)%nat.
Proof.
  induction l as [|x l IH]; intros acc out H; cbn in H.
  - injection H as <-. cbn. lia.
  - destruct (f x) as [e|r]; cbn in H; [discriminate H|].
    apply IH in H. rewrite H, length_app. cbn. lia.
Qed.

Lemma sip_recommendations_length (p : profile) (sip_data : dict (dict value))
    (recommendations : list sip_recommendation) :
  sip_recommendations p sip_data = inr recommendations ->
  (List.length recommendations <= 5)%nat.
Proof.
  unfold sip_recommendations.
  destruct (Py.for_each sip_data _ _) as [e|sip_scores]; cbn [Py.bind]; [discriminate|].
  intros H. apply for_each_append_length in H. rewrite H. cbn [List.length plus].
  apply firstn_le_length.
Qed.

Lemma recommend_sip_length (w : Run.world sip_args)
    (recommendations : list sip_recommendation) :
  fst (recommend_sip w) = inr recommendations ->
  (List.length recommendations <= 5)%nat.
Proof.
  unfold recommend_sip, Run.bind, Run.logger, Run.arguments, Run.ret.
  cbn [Run.args Run.logged].
  destruct (sip_recommendations _ _) as [e|recs] eqn:E; cbn [fst]; [discriminate|].
  intros H. injection H as <-. exact (sip_recommendations_length _ _ _ E).
Qed.

(** C7. For every input, [recommend_stocks] returns at most 8
    recommendations, [recommend_mutual_funds] at most 7,
    [recommend_commodities] at most 3 and [recommend_sip] at most 5. *)
Theorem recommendation_counts_bounded :
  (forall w, (List.length (fst (recommend_stocks w)) <= 8)%nat)
  /\ (forall w, (List.length (fst (recommend_mutual_funds w)) <= 7)%nat)
  /\ (forall w, (List.length (fst (recommend_commodities w)) <= 3)%nat)
  /\ (forall w recommendations,
         fst (recommend_sip w) = inr recommendations ->
         (List.length recommendations <= 5)%nat).
Proof.
  repeat split.
  - exact recommend_stocks_length.
  - exact recommend_mutual_funds_length.
  - exact recommend_commodities_length.
  - exact recommend_sip_length.
Qed.

(** Six plans are offered, five are returned. *)
Lemma recommendation_counts_bounded_witness :
  exists recommendations,
    Run.call recommend_sip (Examples.sip_call Examples.example_sip_data)
    = inr recommendations
    /\ (List.length recommendations <= 5)%nat.
Proof.
  unfold Run.call.
  destruct (fst (recommend_sip
                   {| Run.args := Examples.sip_call Examples.example_sip_data;
                      Run.logged := [] |})) as [e|recs] eqn:E.
  - vm_compute in E. discriminate E.
  - exists recs. split; [reflexivity|].
    exact (proj2 (proj2 (proj2 recommendation_counts_bounded)) _ recs E).
Defined.

Lemma five_of_six_plans :
  exists recommendations,
    Run.call recommend_sip (Examples.sip_call Examples.example_sip_data)
    = inr recommendations
    /\ List.length recommendations = 5%nat.
Proof.
  unfold Run.call.
  destruct (fst (recommend_sip
                   {| Run.args := Examples.sip_call Examples.example_sip_data;
                      Run.logged := [] |})) as [e|recs] eqn:E.
  - vm_compute in E. discriminate E.
  - exists recs. split; [reflexivity|].
    vm_compute in E. injection E as <-. reflexivity.
Qed.

(** No statement of the SIP loop is guarded: a risk rating that is text
    ends the call with a [TypeError]. *)
Lemma text_risk_rating_raises :
  Run.call recommend_sip (Examples.sip_call Examples.example_sip_text_rating)
  = inl TypeError.
Proof. reflexivity. Qed.

End Counts.

(** ** Risk alignment in the mutual fund and SIP scorers *)

Section RiskMatch.

Local Open Scope string_scope.
Local Open Scope list_scope.
Local Open Scope Q_scope.






End RiskMatch.

(** ** Profile normalisation *)

Section Normalisation.

Local Open Scope string_scope.
Local Open Scope list_scope.

(** Text always lands on 3, 5 or 8. *)
Lemma textual_risk_in_range (s : string) :
  exists z, System.risk_value_of (VStr s) = inr z /\ (1 <= z <= 10)%Z.
Proof.
  unfold System.risk_value_of, ok. eexists. split; [reflexivity|].
  unfold get_or, System.risk_words. cbn [get].
  repeat destruct (String.eqb _ _); lia.
Qed.

(** The prompt of [get_user_financial_profile] clamps. *)
Lemma validated_risk_tolerance_in_range (z : Z) :
  (1 <= System.validated_risk_tolerance z <= 10)%Z.
Proof.
  unfold System.validated_risk_tolerance.
  destruct (z <? 1)%Z eqn:E1; destruct (10 <? z)%Z eqn:E2; cbn [orb]; lia.
Qed.

(** C2, at the failing input.  A numeric risk tolerance of 15 in the
    stored profile reaches the scorers as 15: the conversion of
    [generate_stock_recommendations] has no clamp, while the prompt of
    [get_user_financial_profile] turns the same 15 into 10. *)
Theorem numeric_risk_not_clamped :
  (exists p, System.canonical_profile [("risk_tolerance", VNum 15)] = inr p
             /\ risk_tolerance p = 15%Z)
  /\ System.risk_value_of (VNum 15) = inr 15%Z
  /\ System.validated_risk_tolerance 15 = 10%Z.
Proof.
  split; [|split].
  - eexists. split; [vm_compute; reflexivity | reflexivity].
  - reflexivity.
  - reflexivity.
Qed.

End Normalisation.

(** ** Purity of the scorers *)

Section Purity.

Local Open Scope list_scope.

Lemma ret_reads_and_logs {I A} (x : A) : Spec.reads_and_logs (@Run.ret I A x).
Proof.
  intros a. exists x, []. intros lg. unfold Run.ret. now rewrite app_nil_r.
Qed.

Lemma arguments_reads_and_logs {I} : Spec.reads_and_logs (@Run.arguments I).
Proof.
  intros a. exists a, []. intros lg. unfold Run.arguments. cbn. now rewrite app_nil_r.
Qed.

Lemma logger_reads_and_logs {I} (l : Run.level) (m : message) :
  Spec.reads_and_logs (@Run.logger I l m).
Proof.
  intros a. exists tt, [{| Run.log_level := l; Run.log_message := m |}].
  intros lg. reflexivity.
Qed.

Lemma bind_reads_and_logs {I A B} (c : Run.M I A) (k : A -> Run.M I B) :
  Spec.reads_and_logs c -> (forall x, Spec.reads_and_logs (k x)) -> Spec.reads_and_logs (Run.bind c k).
Proof.
  intros Hc Hk a.
  destruct (Hc a) as [x [l1 H1]]. destruct (Hk x a) as [y [l2 H2]].
  exists y, (l1 ++ l2). intros lg.
  unfold Run.bind. rewrite H1, H2, app_assoc. reflexivity.
Qed.

Lemma for_each_reads_and_logs {I A S} (l : list A) (body : A -> S -> Run.M I S) :
  (forall x acc, Spec.reads_and_logs (body x acc)) ->
  forall acc, Spec.reads_and_logs (Run.for_each l body acc).
Proof.
  intros Hb. induction l as [|x l IH]; intros acc; cbn [Run.for_each].
  - apply ret_reads_and_logs.
  - apply bind_reads_and_logs; [apply Hb | exact IH].
Qed.


End Purity.

(** Walks a computation along its binds, loops and case distinctions;
    the arguments are the lemmas for [ret], [arguments], [logger], [bind]
    and [for_each]. *)
Ltac walk_computation on_ret on_arguments on_logger on_bind on_for_each :=
  repeat (cbv beta zeta;
          first
            [ apply on_ret
            | apply on_arguments
            | apply on_logger
            | apply on_bind; [| intros ?]
            | apply on_for_each; intros
            | match goal with
              | |- _ (match ?x with _ => _ end) => destruct x
              | |- _ ((match ?x with _ => _ end) _) => destruct x
              end ]).

Section PureScorers.

Lemma recommend_stocks_reads_and_logs : Spec.reads_and_logs recommend_stocks.
Proof.
  unfold recommend_stocks.
  walk_computation (@ret_reads_and_logs) (@arguments_reads_and_logs)
    (@logger_reads_and_logs) (@bind_reads_and_logs) (@for_each_reads_and_logs).
Qed.

Lemma recommend_mutual_funds_reads_and_logs : Spec.reads_and_logs recommend_mutual_funds.
Proof.
  unfold recommend_mutual_funds.
  walk_computation (@ret_reads_and_logs) (@arguments_reads_and_logs)
    (@logger_reads_and_logs) (@bind_reads_and_logs) (@for_each_reads_and_logs).
Qed.

Lemma recommend_commodities_reads_and_logs : Spec.reads_and_logs recommend_commodities.
Proof.
  unfold recommend_commodities.
  walk_computation (@ret_reads_and_logs) (@arguments_reads_and_logs)
    (@logger_reads_and_logs) (@bind_reads_and_logs) (@for_each_reads_and_logs).
Qed.



End PureScorers.

(** ** Two more examples of the specification *)

Section MoreExamples.

Local Open Scope string_scope.
Local Open Scope list_scope.
Local Open Scope Q_scope.

(** Gold with a day change of 1.5, for a risk tolerance of 2 and a
    horizon of 1 year, scores 5 + 2 + 3 + 2 + 1 = 13. *)
Lemma gold_example (p : profile) :
  risk_tolerance p = 2%Z -> investment_horizon p = 1%Z ->
  ce_score (score_commodity p (commodities (determine_asset_allocation p))
              "Gold" [("day_change", VNum 1.5)]) == 13.
Proof.
  destruct p as [mi me cs ei cd h r]. cbn [risk_tolerance investment_horizon].
  intros -> ->. reflexivity.
Qed.

(** With no technical and no fundamental data the stock scorer returns
    an empty list. *)
Lemma no_stock_data (p : profile) (sentiment_data : dict (dict (dict value)))
    (lg : list Run.log_record) :
  fst (recommend_stocks
         {| Run.args := {| sa_profile := p;
                           sa_stock_data := [("technical", []); ("fundamental", [])];
                           sa_sentiment_data := sentiment_data |};
            Run.logged := lg |}) = [].
Proof. reflexivity. Qed.

End MoreExamples.

(** * Further properties of the engine *)

(** ** Rounding and ordering *)

Section Rounding.

Local Open Scope Q_scope.

Lemma round_half_even_Z (z : Z) : round_half_even (inject_Z z) = z.
Proof.
  unfold round_half_even. rewrite Qfloor_Z.
  assert (E : (inject_Z z - inject_Z z ?= 1 # 2) = Lt).
  { apply (proj1 (Qlt_alt _ _)). generalize (inject_Z z). intros q. lra. }
  now rewrite E.
Qed.

Lemma round_half_even_floor (q : Q) :
  (Qfloor q <= round_half_even q <= Qfloor q + 1)%Z.
Proof.
  unfold round_half_even.
  destruct (q - inject_Z (Qfloor q) ?= 1 # 2); [destruct (Z.even _)| |]; lia.
Qed.

Lemma round_half_even_monotone (x y : Q) :
  x <= y -> (round_half_even x <= round_half_even y)%Z.
Proof.
  intros H.
  pose proof (Qfloor_resp_le _ _ H) as F.
  destruct (Z.eq_dec (Qfloor x) (Qfloor y)) as [E | N].
  - unfold round_half_even. rewrite <- E.
    destruct (x - inject_Z (Qfloor x) ?= 1 # 2) eqn:Cx;
      destruct (y - inject_Z (Qfloor x) ?= 1 # 2) eqn:Cy;
      try (destruct (Z.even (Qfloor x))); try lia;
      repeat match goal with
             | C : (_ ?= _) = Eq |- _ => apply Qeq_alt in C
             | C : (_ ?= _) = Lt |- _ => apply Qlt_alt in C
             | C : (_ ?= _) = Gt |- _ => apply Qgt_alt in C
             end; exfalso; lra.
  - pose proof (round_half_even_floor x). pose proof (round_half_even_floor y). lia.
Qed.

Lemma pow10_positive (n : Z) : (0 <= n)%Z -> 0 < pow10 n.
Proof.
  intros H. unfold pow10.
  assert (P : (0 < 10 ^ n)%Z) by (apply Z.pow_pos_nonneg; lia).
  rewrite Zlt_Qlt in P. exact P.
Qed.

(** [round] never reverses an order. *)
Lemma round_monotone (x y : Q) (ndigits : Z) :
  x <= y -> Py.round x ndigits <= Py.round y ndigits.
Proof.
  intros H. unfold Py.round.
  destruct (Z.leb_spec 0 ndigits) as [L | L].
  - pose proof (pow10_positive ndigits L) as P.
    assert (M : x * pow10 ndigits <= y * pow10 ndigits) by nra.
    apply round_half_even_monotone in M. rewrite Zle_Qle in M.
    apply Qmult_le_compat_r with (z := / pow10 ndigits) in M.
    + exact M.
    + apply Qlt_le_weak, Qinv_lt_0_compat, P.
  - assert (L' : (0 <= - ndigits)%Z) by lia.
    pose proof (pow10_positive (- ndigits) L') as P.
    assert (M : x / pow10 (- ndigits) <= y / pow10 (- ndigits)).
    { apply Qmult_le_compat_r; [exact H|].
      apply Qlt_le_weak, Qinv_lt_0_compat, P. }
    apply round_half_even_monotone in M. rewrite Zle_Qle in M.
    apply Qmult_le_compat_r; [exact M | apply Qlt_le_weak, P].
Qed.

(** A number of hundredths is its own rounding to 2 decimals. *)
Lemma round_hundredths (x : Q) (k : Z) :
  x == inject_Z k / 100 -> Py.round x 2 == x.
Proof.
  intros E. rewrite E. unfold Py.round. cbn [Z.leb Z.compare].
  change (pow10 2) with 100.
  assert (R : inject_Z k / 100 * 100 == inject_Z k) by field.
  rewrite (round_half_even_comp _ _ R), round_half_even_Z. reflexivity.
Qed.

Lemma min_le_l (a b : Q) : Py.min a b <= a.
Proof. destruct (min_cases a b) as [[H ->] | [H ->]]; lra. Qed.

Lemma min_le_r (a b : Q) : Py.min a b <= b.
Proof. destruct (min_cases a b) as [[H ->] | [H ->]]; lra. Qed.

Lemma min_monotone (a b a' b' : Q) :
  a <= a' -> b <= b' -> Py.min a b <= Py.min a' b'.
Proof.
  intros Ha Hb.
  destruct (min_cases a b) as [[H ->] | [H ->]];
    destruct (min_cases a' b') as [[H' ->] | [H' ->]]; lra.
Qed.

Lemma max_monotone (a b a' b' : Q) :
  a <= a' -> b <= b' -> Py.max a b <= Py.max a' b'.
Proof.
  intros Ha Hb.
  destruct (max_cases a b) as [[H ->] | [H ->]];
    destruct (max_cases a' b') as [[H' ->] | [H' ->]]; lra.
Qed.

Lemma max_ge_l (a b : Q) : a <= Py.max a b.
Proof. destruct (max_cases a b) as [[H ->] | [H ->]]; lra. Qed.

Lemma max_ge_r (a b : Q) : b <= Py.max a b.
Proof. destruct (max_cases a b) as [[H ->] | [H ->]]; lra. Qed.

End Rounding.

(** ** The capacity and allocation calculators on every profile *)

Section Calculators.

Local Open Scope Q_scope.


Lemma integral_Z (z : Z) : integral (inject_Z z).
Proof. unfold integral. now rewrite Qfloor_Z. Qed.

Lemma integral_eq (x y : Q) : x == y -> integral x -> integral y.
Proof.
  unfold integral. intros E H. rewrite <- (Qfloor_comp _ _ E).
  apply Qeq_trans with x; [symmetry; exact E | exact H].
Qed.

Lemma integral_plus (x y : Q) : integral x -> integral y -> integral (x + y).
Proof.
  intros Hx Hy. apply integral_eq with (x := inject_Z (Qfloor x + Qfloor y)).
  - rewrite inject_Z_plus. unfold integral in Hx, Hy. rewrite <- Hx, <- Hy. reflexivity.
  - apply integral_Z.
Qed.

Lemma integral_mult (x y : Q) : integral x -> integral y -> integral (x * y).
Proof.
  intros Hx Hy. apply integral_eq with (x := inject_Z (Qfloor x * Qfloor y)).
  - rewrite inject_Z_mult. unfold integral in Hx, Hy. rewrite <- Hx, <- Hy. reflexivity.
  - apply integral_Z.
Qed.

Lemma integral_min (x y : Q) : integral x -> integral y -> integral (Py.min x y).
Proof. intros Hx Hy. destruct (min_cases x y) as [[_ ->] | [_ ->]]; assumption. Qed.

Lemma integral_max (x y : Q) : integral x -> integral y -> integral (Py.max x y).
Proof. intros Hx Hy. destruct (max_cases x y) as [[_ ->] | [_ ->]]; assumption. Qed.

Lemma integral_hundredths (x : Q) : integral (x * 10) -> Py.round x 2 == x.
Proof.
  intros H. apply round_hundredths with (k := (Qfloor (x * 10) * 10)%Z).
  rewrite inject_Z_mult. change (inject_Z 10) with 10. unfold integral in H.
  rewrite <- H. field.
Qed.

(** The equity percentage before scaling and rounding: a number of
    tenths, at most 90, and at least 20 under the short-horizon
    adjustment. *)
Lemma base_equity (p : profile) :
  exists e : Q,
    base_allocation p = (e, 100 - e - 5, 5)
    /\ integral (e * 10)
    /\ e <= 90
    /\ ((investment_horizon p < 3)%Z -> 20 <= e).
Proof.
  unfold base_allocation.
  set (r := inject_Z (risk_tolerance p)).
  set (h := inject_Z (investment_horizon p)).
  assert (Ir : integral r) by apply integral_Z.
  assert (I2 : integral (Py.min (h / 2) 5 * 2)).
  { destruct (min_cases (h / 2) 5) as [[_ ->] | [_ ->]].
    - apply (integral_Z 10).
    - apply integral_eq with (x := h); [field | apply integral_Z]. }
  set (e0 := Py.min (Py.min (30 + r * 5) 90 + Py.min (h / 2) 5 * 2) 90).
  assert (I0 : integral e0).
  { apply integral_min; [|apply (integral_Z 90)].
    apply integral_plus; [|exact I2].
    apply integral_min; [|apply (integral_Z 90)].
    apply integral_plus; [apply (integral_Z 30)|].
    apply integral_mult; [exact Ir | apply (integral_Z 5)]. }
  assert (B0 : e0 <= 90) by apply min_le_r.
  destruct (h <? 3) eqn:Hh.
  - exists (Py.max (e0 * 0.7) 20). split; [reflexivity|]. split; [|split].
    + destruct (max_cases (e0 * 0.7) 20) as [[_ ->] | [_ ->]].
      * apply (integral_Z 200).
      * apply integral_eq with (x := e0 * 7); [field|].
        apply integral_mult; [exact I0 | apply (integral_Z 7)].
    + destruct (max_cases (e0 * 0.7) 20) as [[_ ->] | [_ ->]]; lra.
    + intros _. apply max_ge_r.
  - exists e0. split; [reflexivity|]. split; [|split].
    + apply integral_mult; [exact I0 | apply (integral_Z 10)].
    + exact B0.
    + intros H. exfalso. apply Qltb_ge in Hh. unfold h in Hh.
      rewrite <- (Zle_Qle 3) in Hh. lia.
Qed.

(** The percentages returned are the ones before scaling and rounding:
    neither step changes a value. *)
Lemma returned_allocation (p : profile) :
  exists e : Q,
    base_allocation p = (e, 100 - e - 5, 5)
    /\ equity (determine_asset_allocation p) == e
    /\ debt (determine_asset_allocation p) == 95 - e
    /\ commodities (determine_asset_allocation p) == 5.
Proof.
  destruct (base_equity p) as [e [B [I _]]]. exists e. split; [exact B|].
  unfold determine_asset_allocation. rewrite B. unfold renormalize.
  cbn [equity debt commodities].
  assert (T : e + (100 - e - 5) + 5 == 100) by ring.
  rewrite !T. split; [|split].
  - assert (E : e / 100 * 100 == e) by field.
    rewrite E. apply integral_hundredths, I.
  - assert (E : (100 - e - 5) / 100 * 100 == 95 - e) by field.
    rewrite E. apply integral_hundredths.
    apply integral_eq with (x := 950 - e * 10); [ring|].
    apply integral_eq with (x := inject_Z 950 + inject_Z (-1) * (e * 10)); [ring|].
    apply integral_plus; [apply integral_Z|].
    apply integral_mult; [apply integral_Z | exact I].
  - reflexivity.
Qed.



Lemma returned_equity (p : profile) :
  equity (determine_asset_allocation p) == fst (fst (base_allocation p)).
Proof.
  destruct (returned_allocation p) as [e [B [E _]]]. rewrite B. exact E.
Qed.

Lemma inject_Z_monotone (x y : Z) : (x <= y)%Z -> inject_Z x <= inject_Z y.
Proof. intros H. now rewrite <- Zle_Qle. Qed.



(** X4. For a risk tolerance of at least 1, a longer horizon never lowers
    the equity allocation. *)
Theorem equity_monotone_in_horizon (p q : profile) :
  risk_tolerance p = risk_tolerance q ->
  (1 <= risk_tolerance p)%Z ->
  (investment_horizon p <= investment_horizon q)%Z ->
  equity (determine_asset_allocation p) <= equity (determine_asset_allocation q).
Proof.
  intros Hr H1 Hh. rewrite !returned_equity. unfold base_allocation. rewrite <- Hr.
  apply inject_Z_monotone in H1. change (inject_Z 1) with 1 in H1.
  set (r := inject_Z (risk_tolerance p)) in *.
  pose proof (inject_Z_monotone _ _ Hh) as Hq.
  set (hp := inject_Z (investment_horizon p)) in *.
  set (hq := inject_Z (investment_horizon q)) in *.
  set (b := Py.min (30 + r * 5) 90).
  assert (Hb : 35 <= b).
  { unfold b. destruct (min_cases (30 + r * 5) 90) as [[_ ->] | [_ ->]]; lra. }
  assert (Dp : hp / 2 * 2 == hp) by field.
  assert (Dq : hq / 2 * 2 == hq) by field.
  set (xp := hp / 2) in *. set (xq := hq / 2) in *.
  assert (F : Py.min xp 5 * 2 <= Py.min xq 5 * 2).
  { assert (Py.min xp 5 <= Py.min xq 5) by (apply min_monotone; lra). lra. }
  assert (M : Py.min (b + Py.min xp 5 * 2) 90 <= Py.min (b + Py.min xq 5 * 2) 90)
    by (apply min_monotone; lra).
  destruct (hp <? 3) eqn:Ep; destruct (hq <? 3) eqn:Eq; cbn [fst].
  - apply max_monotone; lra.
  - apply Qltb_ge in Eq.
    assert (G : 38 <= Py.min (b + Py.min xq 5 * 2) 90).
    { destruct (min_cases xq 5) as [[_ ->] | [_ ->]];
        match goal with
        | |- _ <= Py.min ?a 90 => destruct (min_cases a 90) as [[_ ->] | [_ ->]]
        end; lra. }
    destruct (max_cases (Py.min (b + Py.min xp 5 * 2) 90 * 0.7) 20)
      as [[_ ->] | [_ ->]]; [lra|].
    pose proof (min_le_r (b + Py.min xp 5 * 2) 90).
    assert (Py.min (b + Py.min xp 5 * 2) 90 * 0.7
            <= Py.max 0 (Py.min (b + Py.min xp 5 * 2) 90)).
    { destruct (max_cases 0 (Py.min (b + Py.min xp 5 * 2) 90))
        as [[A ->] | [A ->]]; lra. }
    destruct (max_cases 0 (Py.min (b + Py.min xp 5 * 2) 90))
      as [[A E] | [A E]]; rewrite E in *; lra.
  - apply Qltb_lt in Eq. apply Qltb_ge in Ep. exfalso. lra.
  - exact M.
Qed.

Lemma equity_monotone_in_horizon_witness :
  equity (determine_asset_allocation
            {| monthly_income := 50000; monthly_expense := 30000;
               current_savings := 100000; existing_investments := 200000;
               current_debt := 50000; investment_horizon := 2; risk_tolerance := 5 |})
  <= equity (determine_asset_allocation Examples.example_profile).
Proof.
  apply equity_monotone_in_horizon; cbn; [reflexivity | lia | lia].
Defined.



End Calculators.

(** ** Risk management tips *)

Section Tips.

Lemma ratio_above (a b c : Q) : 0 < c -> (a < b / c <-> a * c < b).
Proof.
  intros Hc. split; intros H.
  - assert (E : b == b / c * c) by (field; intros E; rewrite E in Hc; discriminate).
    rewrite E. apply Qmult_lt_compat_r; assumption.
  - apply Qlt_shift_div_l; assumption.
Qed.


Lemma debt_ratio_of_tips (p : profile) :
  Py.xgt (if 0 <? monthly_income p
          then Py.Finite (current_debt p / (monthly_income p * 12))
          else Py.Infinity) 0.5 = true
  <-> debt_above_half_a_year p.
Proof.
  unfold debt_above_half_a_year.
  destruct (0 <? monthly_income p) eqn:E; cbn [Py.xgt].
  - apply Qltb_lt in E. split.
    + intros H. apply Qltb_lt in H. right.
      apply ratio_above in H; [lra | lra].
    + intros [H | H]; [lra|].
      destruct (0.5 <? current_debt p / (monthly_income p * 12)) eqn:F; [reflexivity|].
      apply Qltb_ge in F. exfalso.
      assert (G : 0.5 < current_debt p / (monthly_income p * 12))
        by (apply ratio_above; lra).
      lra.
  - apply Qltb_ge in E. split; [intros _; left; exact E | reflexivity].
Qed.


(** The tips always number between 13 and 16. *)
Lemma tips_count (p : profile) :
  (13 <= List.length (risk_management_tips p) <= 16)%nat.
Proof.
  unfold risk_management_tips. cbv zeta.
  destruct (Py.xgt _ 0.5); destruct (_ <? 0.2);
    destruct (investment_horizon p <? 3)%Z; destruct (investment_horizon p <? 7)%Z;
    destruct (risk_tolerance p <=? 3)%Z; destruct (risk_tolerance p <=? 7)%Z;
    cbn [List.length app]; lia.
Qed.

(** The tip is appended under the test on the debt ratio, and nowhere
    else. *)
Lemma debt_tip_tested (p : profile) :
  In debt_tip (risk_management_tips p)
  <-> Py.xgt (if 0 <? monthly_income p
              then Py.Finite (current_debt p / (monthly_income p * 12))
              else Py.Infinity) 0.5 = true.
Proof.
  unfold risk_management_tips. cbv zeta.
  destruct (Py.xgt _ 0.5); destruct (_ <? 0.2);
    destruct (investment_horizon p <? 3)%Z; destruct (investment_horizon p <? 7)%Z;
    destruct (risk_tolerance p <=? 3)%Z; destruct (risk_tolerance p <=? 7)%Z;
    cbn [app In]; unfold debt_tip;
    (split;
     [ intros H; first [reflexivity | repeat (destruct H as [H | H]; [discriminate H|]); destruct H]
     | intros H; first [discriminate H | right; right; left; reflexivity] ]).
Qed.



(** X8. Whenever the tips call the debt level high, the capacity calculator
    has taken its debt-first branch: 30 % of the surplus to investment and
    70 % to debt repayment. *)
Theorem debt_tip_means_debt_first (p : profile) :
  In debt_tip (risk_management_tips p) ->
  let c := calculate_investment_capacity p in
  recommended_monthly_investment c == Py.max 0 (monthly_surplus c * 0.3)
  /\ debt_payment_recommendation c == Py.max 0 (monthly_surplus c * 0.7).
Proof.
  intros H. apply debt_tip_tested, debt_ratio_of_tips in H. cbv zeta.
  unfold calculate_investment_capacity.
  assert (E : Py.xgt (if 0 <? monthly_income p
                      then Py.Finite (current_debt p / monthly_income p)
                      else Py.Infinity) 0.5 = true).
  { destruct (0 <? monthly_income p) eqn:F; [|reflexivity].
    apply Qltb_lt in F. cbn [Py.xgt].
    destruct H as [H | H]; [lra|].
    destruct (0.5 <? current_debt p / monthly_income p) eqn:G; [reflexivity|].
    apply Qltb_ge in G. exfalso.
    assert (K : 0.5 < current_debt p / monthly_income p) by (apply ratio_above; lra).
    lra. }
  rewrite E. cbn. split; reflexivity.
Qed.

Lemma debt_tip_means_debt_first_witness :
  let p := {| monthly_income := 50000; monthly_expense := 30000;
              current_savings := 100000; existing_investments := 200000;
              current_debt := 400000; investment_horizon := 5;
              risk_tolerance := 5 |} in
  recommended_monthly_investment (calculate_investment_capacity p)
  == Py.max 0 (monthly_surplus (calculate_investment_capacity p) * 0.3).
Proof.
  cbv zeta.
  apply (debt_tip_means_debt_first
           {| monthly_income := 50000; monthly_expense := 30000;
              current_savings := 100000; existing_investments := 200000;
              current_debt := 400000; investment_horizon := 5;
              risk_tolerance := 5 |}).
  vm_compute. right. right. left. reflexivity.
Defined.

(** The converse fails: the calculator divides the debt by one month of
    income, the tips by twelve. *)
Lemma debt_first_without_debt_tip :
  Py.xgt (debt_to_income_ratio (calculate_investment_capacity Examples.example_profile)) 0.5
  = true
  /\ ~ In debt_tip (risk_management_tips Examples.example_profile).
Proof.
  split; [reflexivity|].
  intros H. apply debt_tip_tested, debt_ratio_of_tips in H. unfold debt_above_half_a_year in H.
  cbn in H. destruct H as [H | H]; vm_compute in H; discriminate H || (apply H; reflexivity).
Qed.

End Tips.

(** ** Dicts and ranking *)

Section Ranking.

Local Open Scope list_scope.

Lemma get_in_keys {V} (d : dict V) (k : string) :
  In k (keys d) <-> exists v, get d k = Some v.
Proof.
  induction d as [|[k' v'] d IH]; cbn.
  - split; [intros [] | intros [v H]; discriminate H].
  - destruct (String.eqb k' k) eqn:E.
    + apply String.eqb_eq in E. split; [intros _; now exists v' | intros _; now left].
    + apply String.eqb_neq in E. rewrite <- IH. split; [intros [H | H]|]; tauto.
Qed.

Lemma has_key_in_keys {V} (d : dict V) (k : string) :
  has_key d k = true <-> In k (keys d).
Proof.
  rewrite get_in_keys. unfold has_key.
  destruct (get d k) as [v|]; split; try discriminate.
  - intros _. now exists v.
  - reflexivity.
  - intros [v H]. discriminate H.
Qed.



Lemma keys_set {V} (d : dict V) (k : string) (v : V) :
  keys (set d k v) = if has_key d k then keys d else keys d ++ [k].
Proof.
  unfold has_key. induction d as [|[k' v'] d IH]; cbn; [reflexivity|].
  destruct (String.eqb k' k) eqn:E; cbn; [reflexivity|].
  unfold keys in IH. rewrite IH.
  destruct (get d k); reflexivity.
Qed.

Lemma set_keeps_nodup {V} (d : dict V) (k : string) (v : V) :
  NoDup (keys d) -> NoDup (keys (set d k v)).
Proof.
  intros H. rewrite keys_set. destruct (has_key d k) eqn:E; [exact H|].
  assert (Hk : ~ In k (keys d)).
  { intros Hi. apply has_key_in_keys in Hi. congruence. }
  apply NoDup_app; [exact H | repeat constructor; intros [] | ].
  intros x Hx [<- | []]. tauto.
Qed.

Lemma in_set {V} (d : dict V) (k k' : string) (v v' : V) :
  In (k', v') (set d k v) -> (k' = k /\ v' = v) \/ In (k', v') d.
Proof.
  induction d as [|[k0 v0] d IH]; cbn.
  - intros [H | []]. injection H as <- <-. now left.
  - destruct (String.eqb k0 k) eqn:E; cbn.
    + apply String.eqb_eq in E. subst k0.
      intros [H | H]; [injection H as <- <-; now left | tauto].
    + intros [H | H]; [tauto|]. apply IH in H. tauto.
Qed.

Section Keyed.
Context {A : Type} (key : A -> Q).

Lemma insert_desc_permutation (x : A) (l : list A) :
  Permutation (insert_desc key x l) (x :: l).
Proof.
  induction l as [|y l IH]; cbn; [reflexivity|].
  destruct (key x <? key y); [|reflexivity].
  rewrite IH. apply perm_swap.
Qed.

Lemma sorted_desc_permutation (l : list A) : Permutation (sorted_desc key l) l.
Proof.
  induction l as [|x l IH]; cbn; [reflexivity|].
  fold (sorted_desc key l). rewrite insert_desc_permutation. now constructor.
Qed.

Lemma insert_desc_descending (x : A) (l : list A) :
  descending key l -> descending key (insert_desc key x l).
Proof.
  induction l as [|y l IH]; cbn.
  - intros _. split; [intros ? [] | exact I].
  - intros [Hy Hl]. destruct (key x <? key y) eqn:E; cbn.
    + apply Qltb_lt in E. split; [|now apply IH].
      intros z Hz. apply (Permutation_in _ (insert_desc_permutation x l)) in Hz.
      destruct Hz as [<- | Hz]; [lra | now apply Hy].
    + apply Qltb_ge in E. split; [|split; assumption].
      intros z [<- | Hz]; [exact E|]. specialize (Hy z Hz). lra.
Qed.

Lemma sorted_desc_descending (l : list A) : descending key (sorted_desc key l).
Proof.
  induction l as [|x l IH]; cbn; [exact I|].
  now apply insert_desc_descending.
Qed.

Lemma descending_firstn (n : nat) (l : list A) :
  descending key l -> descending key (firstn n l).
Proof.
  revert n. induction l as [|x l IH]; intros [|n]; cbn; try tauto.
  intros [Hx Hl]. split; [|now apply IH].
  intros y Hy. apply Hx. rewrite <- (firstn_skipn n l). apply in_or_app. now left.
Qed.


Lemma descending_map {B} (f : A -> B) (key' : B -> Q) (l : list A) :
  (forall x y, key y <= key x -> key' (f y) <= key' (f x)) ->
  descending key l -> descending key' (map f l).
Proof.
  intros Hf. induction l as [|x l IH]; cbn; [tauto|].
  intros [Hx Hl]. split; [|now apply IH].
  intros y Hy. apply in_map_iff in Hy. destruct Hy as [z [<- Hz]].
  apply Hf. now apply Hx.
Qed.

End Keyed.

Lemma nodup_firstn {A} (n : nat) (l : list A) : NoDup l -> NoDup (firstn n l).
Proof.
  intros H. rewrite <- (firstn_skipn n l) in H. exact (NoDup_app_remove_r _ _ H).
Qed.

End Ranking.

(** ** The ranking of the stock scorer *)

Section StockRanking.

Local Open Scope list_scope.

Lemma for_each_invariant {I A S} (P : S -> Prop) (l : list A)
    (body : A -> S -> Run.M I S) :
  (forall x s w, In x l -> P s -> P (fst (body x s w))) ->
  forall acc w, P acc -> P (fst (Run.for_each l body acc w)).
Proof.
  induction l as [|x l IH]; intros Hbody acc w Hacc; cbn; [exact Hacc|].
  unfold Run.bind. destruct (body x acc w) as [s w1] eqn:E.
  apply IH.
  - intros y s' w' Hy. apply Hbody. now right.
  - change s with (fst (s, w1)). rewrite <- E. apply Hbody; [now left | exact Hacc].
Qed.

Lemma in_values {V} (d : dict V) (v : V) :
  In v (values d) -> exists k, In (k, v) d.
Proof.
  unfold values. intros H. apply in_map_iff in H.
  destruct H as [[k v'] [E H]]. cbn in E. subst v'. now exists k.
Qed.

Lemma keyed_values {V} (name : V -> string) (d : dict V) :
  (forall k v, In (k, v) d -> name v = k) -> map name (values d) = keys d.
Proof.
  unfold values, keys. rewrite map_map. intros H. apply map_ext_in.
  intros [k v] Hi. cbn. now apply H.
Qed.

(** The normalisation and boost of the score, before the clamp. *)
Lemma boosted_score_monotone (a b : Q) :
  a <= b ->
  (a - min_possible_score) / (max_possible_score - min_possible_score) * 10 * 1.15
  <= (b - min_possible_score) / (max_possible_score - min_possible_score) * 10 * 1.15.
Proof.
  intros H. unfold max_possible_score, min_possible_score.
  setoid_replace ((a - -3) / (25 - -3) * 10 * 1.15) with ((a + 3) * (23 # 56)) by field.
  setoid_replace ((b - -3) / (25 - -3) * 10 * 1.15) with ((b + 3) * (23 # 56)) by field.
  lra.
Qed.

(** X9. A stock with a higher score never gets a lower recommendation
    strength. *)
Theorem strength_monotone (a b : Q) :
  a <= b -> recommendation_strength_of a <= recommendation_strength_of b.
Proof.
  intros H. unfold recommendation_strength_of. cbv zeta.
  apply round_monotone. apply max_monotone; [lra|].
  apply min_monotone; [lra|]. now apply boosted_score_monotone.
Qed.

Lemma strength_monotone_witness :
  recommendation_strength_of 10 <= recommendation_strength_of 20.
Proof. apply (strength_monotone 10 20). lra. Defined.

(** X10. The stock recommendations come out best first: in descending order
    of raw score, and so of recommendation strength. *)
Theorem recommend_stocks_sorted (w : Run.world stock_args) :
  descending raw_score (fst (recommend_stocks w))
  /\ descending recommendation_strength (fst (recommend_stocks w)).
Proof.
  unfold recommend_stocks, Run.bind, Run.logger, Run.arguments, Run.ret.
  cbn [Run.args Run.logged].
  destruct (filter _ _); [cbn; tauto|].
  destruct (Run.for_each _ _ _ _) as [fundamental_scores w1].
  destruct (firstn 25 _); [cbn; tauto|].
  destruct (Run.for_each _ _ _ _) as [stock_scores w2].
  destruct (firstn 8 _) eqn:E; [cbn; tauto|].
  cbn [fst]. rewrite <- E.
  split; apply (descending_map se_score);
    try (apply descending_firstn; apply sorted_desc_descending).
  - intros x y H. exact H.
  - intros x y H. cbn [format_stock recommendation_strength].
    unfold recommendation_strength_of. cbv zeta.
    apply round_monotone. apply max_monotone; [lra|].
    apply min_monotone; [lra|]. now apply boosted_score_monotone.
Qed.

Lemma fundamental_analysis_symbol (p : profile) (sector_sentiment : dict (dict value))
    (symbol : string) (fund : dict value) :
  fe_symbol (fundamental_analysis p sector_sentiment symbol fund) = symbol.
Proof.
  unfold fundamental_analysis. cbv zeta.
  destruct (market_cap_analysis _ _ _) as [market_cap_category t]. reflexivity.
Qed.

Lemma technical_analysis_symbol (p : profile) (fundamental_data : dict (dict value))
    (stock : fundamental_entry) (tech : dict value) (entry : stock_entry) :
  technical_analysis p fundamental_data stock tech = inr entry ->
  se_symbol entry = fe_symbol stock.
Proof.
  unfold technical_analysis. cbv zeta.
  destruct (price_to_ma50_analysis _ _) as [e|t1]; cbn [Py.bind]; [discriminate|].
  destruct (price_to_ma200_analysis _ _) as [e|t2]; cbn [Py.bind]; [discriminate|].
  destruct (rsi_analysis _ _) as [e|t3]; cbn [Py.bind]; [discriminate|].
  destruct (macd_analysis _ _) as [e|t4]; cbn [Py.bind]; [discriminate|].
  destruct (volume_change_analysis _ _) as [e|t5]; cbn [Py.bind]; [discriminate|].
  destruct (day_change_analysis _ _) as [e|t6]; cbn [Py.bind]; [discriminate|].
  destruct (volatility_assessment _ _ _) as [e|t7]; cbn [Py.bind]; [discriminate|].
  intros H. injection H as <-. reflexivity.
Qed.

(** X11. Every recommended stock is one for which both technical and
    fundamental data were supplied, and no stock is recommended twice. *)
Theorem recommend_stocks_symbols (w : Run.world stock_args) :
  let technical_data := get_or (sa_stock_data (Run.args w)) "technical" [] in
  let fundamental_data := get_or (sa_stock_data (Run.args w)) "fundamental" [] in
  NoDup (map sr_symbol (fst (recommend_stocks w)))
  /\ forall r, In r (fst (recommend_stocks w)) ->
       In (sr_symbol r) (keys technical_data)
       /\ In (sr_symbol r) (keys fundamental_data).
Proof.
  cbv zeta.
  unfold recommend_stocks, Run.bind, Run.logger, Run.arguments, Run.ret.
  cbn [Run.args Run.logged].
  set (technical_data := get_or (sa_stock_data (Run.args w)) "technical" []).
  set (fundamental_data := get_or (sa_stock_data (Run.args w)) "fundamental" []).
  set (valid_stocks := filter (has_key fundamental_data) (keys technical_data)).
  assert (Hvalid : forall k, In k valid_stocks ->
                     In k (keys technical_data) /\ In k (keys fundamental_data)).
  { intros k Hk. apply filter_In in Hk. destruct Hk as [Hk Hf].
    split; [exact Hk | now apply has_key_in_keys]. }
  destruct valid_stocks as [|v0 vs] eqn:Ev; [cbn; split; [constructor | intros ? []]|].
  rewrite <- Ev in *. clear Ev v0 vs.
  match goal with
  | |- context [Run.for_each valid_stocks ?body ?acc ?w0] =>
      pose proof (for_each_invariant
                    (fun fs : dict fundamental_entry =>
                       forall k e, In (k, e) fs -> fe_symbol e = k /\ In k valid_stocks)
                    valid_stocks body) as Inv1;
      specialize (fun H => Inv1 H acc w0);
      destruct (Run.for_each valid_stocks body acc w0) as [fundamental_scores w1]
  end.
  cbn [fst] in Inv1.
  assert (H1 : forall k e, In (k, e) fundamental_scores ->
                 fe_symbol e = k /\ In k valid_stocks).
  { apply Inv1; [|intros ? ? []].
    intros x s w0 Hx Hs. destruct (get_or fundamental_data x []); cbn [fst]; [exact Hs|].
    intros k e Hi. apply in_set in Hi. destruct Hi as [[-> ->] | Hi]; [|now apply Hs].
    split; [apply fundamental_analysis_symbol | exact Hx]. }
  clear Inv1.
  set (top := firstn 25 (sorted_desc fe_score (values fundamental_scores))).
  assert (Htop : forall stock, In stock top -> In (fe_symbol stock) valid_stocks).
  { intros stock Hs. unfold top in Hs.
    assert (Hin : In stock (values fundamental_scores)).
    { apply (Permutation_in _ (sorted_desc_permutation fe_score _)).
      rewrite <- (firstn_skipn 25 (sorted_desc fe_score (values fundamental_scores))).
      apply in_or_app. now left. }
    apply in_values in Hin. destruct Hin as [k Hk].
    destruct (H1 k stock Hk) as [-> Hv]. exact Hv. }
  destruct top as [|t0 ts] eqn:Et; [cbn; split; [constructor | intros ? []]|].
  rewrite <- Et in *. clear Et t0 ts.
  match goal with
  | |- context [Run.for_each top ?body ?acc ?w0] =>
      pose proof (for_each_invariant
                    (fun ss : dict stock_entry =>
                       NoDup (keys ss)
                       /\ forall k e, In (k, e) ss -> se_symbol e = k /\ In k valid_stocks)
                    top body) as Inv2;
      specialize (fun H => Inv2 H acc w0);
      destruct (Run.for_each top body acc w0) as [stock_scores w2]
  end.
  cbn [fst] in Inv2.
  assert (H2 : NoDup (keys stock_scores)
               /\ forall k e, In (k, e) stock_scores ->
                    se_symbol e = k /\ In k valid_stocks).
  { apply Inv2; [|split; [constructor | intros ? ? []]].
    intros x s w0 Hx [Hn Hs]. destruct (get_or technical_data (fe_symbol x) []);
      cbn [fst]; [now split|].
    destruct (technical_analysis _ _ _ _) as [e|entry] eqn:Ea; cbn [fst]; [now split|].
    split; [now apply set_keeps_nodup|].
    intros k e Hi. apply in_set in Hi. destruct Hi as [[-> ->] | Hi]; [|now apply Hs].
    split; [exact (technical_analysis_symbol _ _ _ _ _ Ea) | now apply Htop]. }
  clear Inv2. destruct H2 as [Hn H2].
  set (sorted_stocks := sorted_desc se_score (values stock_scores)).
  assert (Hperm : Permutation sorted_stocks (values stock_scores))
    by apply sorted_desc_permutation.
  destruct (firstn 8 sorted_stocks) as [|s0 ss] eqn:Es;
    [cbn; split; [constructor | intros ? []]|].
  rewrite <- Es. clear Es s0 ss. cbn [fst]. split.
  - rewrite map_map. cbn [format_stock sr_symbol].
    rewrite <- firstn_map. apply nodup_firstn.
    apply (Permutation_NoDup (Permutation_sym (Permutation_map se_symbol Hperm))).
    rewrite (keyed_values se_symbol stock_scores); [exact Hn|].
    intros k v Hi. now apply H2.
  - intros r Hr. apply in_map_iff in Hr. destruct Hr as [e [<- He]].
    cbn [format_stock sr_symbol].
    assert (Hin : In e (values stock_scores)).
    { apply (Permutation_in _ Hperm).
      rewrite <- (firstn_skipn 8 sorted_stocks). apply in_or_app. now left. }
    apply in_values in Hin. destruct Hin as [k Hk].
    destruct (H2 k e Hk) as [-> Hv]. now apply Hvalid.
Qed.

End StockRanking.

(** ** The best-scoring funds and commodities *)

Section TopRanked.

Local Open Scope list_scope.


Section Scored.
Context {V E : Type} (score_of : string -> V -> E) (key : E -> Q) (name : E -> string).
Hypothesis name_of_score : forall k v, name (score_of k v) = k.
Variable data : dict V.
Hypothesis distinct_keys : NoDup (keys data).
Variable n : nat.






End Scored.










End TopRanked.

(** ** When the SIP scorer returns, and what it suggests *)

Section Sip.

Local Open Scope string_scope.
Local Open Scope list_scope.

Lemma sip_risk_alignment_returns (risk_tolerance : Z) (sip : dict value) (t : tally) :
  (is_not_none (field sip "risk_level") || negb (is_text (field sip "risk_rating"))) = true ->
  exists t', sip_risk_alignment risk_tolerance sip t = inr t'.
Proof.
  unfold sip_risk_alignment.
  destruct (is_not_none (field sip "risk_level")); [intros _; eexists; reflexivity|].
  destruct (field sip "risk_rating") as [|q|s]; cbn; intros H;
    [eexists; reflexivity | eexists; reflexivity | discriminate H].
Qed.

Lemma sip_risk_alignment_raises (risk_tolerance : Z) (sip : dict value) (t : tally) :
  (is_not_none (field sip "risk_level") || negb (is_text (field sip "risk_rating"))) = false ->
  sip_risk_alignment risk_tolerance sip t = inl TypeError.
Proof.
  unfold sip_risk_alignment.
  destruct (is_not_none (field sip "risk_level")); [discriminate|].
  destruct (field sip "risk_rating") as [|q|s]; cbn; intros H;
    [discriminate H | discriminate H | reflexivity].
Qed.

Lemma sip_minimum_investment_returns (recommended_monthly_investment : Q)
    (sip : dict value) (t : tally) :
  is_text (field sip "min_investment") = false ->
  exists t', sip_minimum_investment recommended_monthly_investment sip t = inr t'.
Proof.
  unfold sip_minimum_investment.
  destruct (field sip "min_investment") as [|q|s]; cbn; intros H;
    [eexists; reflexivity | | discriminate H].
  destruct (Qleb _ _); eexists; reflexivity.
Qed.

Lemma sip_minimum_investment_raises (recommended_monthly_investment : Q)
    (sip : dict value) (t : tally) :
  is_text (field sip "min_investment") = true ->
  sip_minimum_investment recommended_monthly_investment sip t = inl TypeError.
Proof.
  unfold sip_minimum_investment.
  destruct (field sip "min_investment") as [|q|s]; cbn; intros H;
    [discriminate H | discriminate H | reflexivity].
Qed.

Lemma score_sip_returns (p : profile) (recommended_monthly_investment : Q)
    (asset_allocation : asset_allocation) (sip_name : string) (sip : dict value) :
  sip_readable sip = true ->
  exists entry,
    score_sip p recommended_monthly_investment asset_allocation sip_name sip = inr entry
    /\ si_min_investment entry = field sip "min_investment".
Proof.
  unfold sip_readable. intros H. apply andb_true_iff in H. destruct H as [Hm Hr].
  apply negb_true_iff in Hm. unfold score_sip. cbv zeta.
  destruct (sip_risk_alignment_returns (risk_tolerance p) sip (0, []) Hr) as [t1 ->].
  cbn [Py.bind].
  match goal with
  | |- context [sip_minimum_investment ?r sip ?t] =>
      destruct (sip_minimum_investment_returns r sip t Hm) as [t2 ->]
  end.
  cbn [Py.bind]. eexists. split; reflexivity.
Qed.

Lemma score_sip_raises (p : profile) (recommended_monthly_investment : Q)
    (asset_allocation : asset_allocation) (sip_name : string) (sip : dict value) :
  sip_readable sip = false ->
  score_sip p recommended_monthly_investment asset_allocation sip_name sip = inl TypeError.
Proof.
  unfold sip_readable. intros H. unfold score_sip. cbv zeta.
  destruct (is_not_none (field sip "risk_level") || negb (is_text (field sip "risk_rating")))
    eqn:Hr.
  - rewrite andb_true_r in H. apply negb_false_iff in H.
    destruct (sip_risk_alignment_returns (risk_tolerance p) sip (0, []) Hr) as [t1 ->].
    cbn [Py.bind]. now rewrite sip_minimum_investment_raises.
  - now rewrite sip_risk_alignment_raises.
Qed.

Lemma format_sip_returns (recommended_monthly_investment total_allocation : Q)
    (sip : sip_entry) :
  is_text (si_min_investment sip) = false ->
  exists r, format_sip recommended_monthly_investment total_allocation sip = inr r.
Proof.
  unfold format_sip. cbv zeta.
  destruct (si_min_investment sip) as [|q|s]; cbn; intros H;
    [eexists; reflexivity | | discriminate H].
  destruct (negb (Qeq_bool q 0)); cbn; eexists; reflexivity.
Qed.

Lemma for_each_returns {A S} (P : S -> Prop) (l : list A) (body : A -> S -> result S) :
  (forall x s, In x l -> P s -> exists s', body x s = inr s' /\ P s') ->
  forall acc, P acc -> exists out, Py.for_each l body acc = inr out /\ P out.
Proof.
  induction l as [|x l IH]; intros Hbody acc Hacc; cbn.
  - now exists acc.
  - destruct (Hbody x acc (or_introl eq_refl) Hacc) as [s [-> Hs]]. cbn [Py.bind].
    apply IH; [|exact Hs]. intros y s' Hy. apply Hbody. now right.
Qed.

Lemma for_each_raises {A S} (P : S -> Prop) (e : exn) (l : list A)
    (body : A -> S -> result S) (bad : A -> Prop) :
  (forall x s, In x l -> P s -> body x s = inl e \/ exists s', body x s = inr s' /\ P s') ->
  (forall x s, bad x -> body x s = inl e) ->
  Exists bad l ->
  forall acc, P acc -> Py.for_each l body acc = inl e.
Proof.
  intros Hbody Hbad Hex. induction Hex as [x l Hx | x l Hex IH]; intros acc Hacc; cbn.
  - now rewrite Hbad.
  - destruct (Hbody x acc (or_introl eq_refl) Hacc) as [-> | [s [-> Hs]]]; [reflexivity|].
    cbn [Py.bind]. apply IH; [|exact Hs]. intros y s' Hy. apply Hbody. now right.
Qed.

Lemma for_each_keeps {A S} (P : S -> Prop) (l : list A) (body : A -> S -> result S) :
  (forall x s s', In x l -> P s -> body x s = inr s' -> P s') ->
  forall acc out, P acc -> Py.for_each l body acc = inr out -> P out.
Proof.
  induction l as [|x l IH]; intros Hbody acc out Hacc; cbn.
  - intros H. injection H as <-. exact Hacc.
  - destruct (body x acc) as [e|s] eqn:E; cbn [Py.bind]; [discriminate|].
    apply IH.
    + intros y s1 s2 Hy. apply Hbody. now right.
    + exact (Hbody x acc s (or_introl eq_refl) Hacc E).
Qed.

Lemma in_top_values {A} (key : A -> Q) (n : nat) (d : dict A) (x : A) :
  In x (firstn n (sorted_desc key (values d))) -> exists k, In (k, x) d.
Proof.
  intros H. apply in_values.
  apply (Permutation_in _ (sorted_desc_permutation key _)).
  rewrite <- (firstn_skipn n (sorted_desc key (values d))). apply in_or_app. now left.
Qed.

(** With readable plans only, the part of [recommend_sip] that can
    raise returns. *)
Lemma sip_recommendations_return (p : profile) (sip_data : dict (dict value)) :
  Forall (fun item => sip_readable (snd item) = true) sip_data ->
  exists recommendations, sip_recommendations p sip_data = inr recommendations.
Proof.
  intros Hall. unfold sip_recommendations. cbv zeta.
  match goal with
  | |- context [Py.for_each sip_data ?body ?a0] =>
      destruct (for_each_returns
                  (fun scores : dict sip_entry =>
                     forall k e, In (k, e) scores -> is_text (si_min_investment e) = false)
                  sip_data body) with (acc := a0) as [scores [-> Hscores]]
  end.
  - intros [sip_name sip] s Hx Hs.
    rewrite Forall_forall in Hall. specialize (Hall _ Hx). cbn [snd] in Hall.
    match goal with
    | |- context [score_sip p ?r ?a sip_name sip] =>
        destruct (score_sip_returns p r a sip_name sip Hall) as [entry [-> Hm]]
    end.
    cbn [Py.bind]. eexists. split; [reflexivity|].
    intros k e Hi. apply in_set in Hi. destruct Hi as [[-> ->] | Hi]; [|now apply (Hs k)].
    rewrite Hm. unfold sip_readable in Hall. apply andb_true_iff in Hall.
    now apply negb_true_iff.
  - intros k e [].
  - cbn [Py.bind].
    match goal with
    | |- context [Py.for_each ?top ?body ?a0] =>
        destruct (for_each_returns (fun _ : list sip_recommendation => True) top body)
          with (acc := a0) as [out [-> _]]
    end.
    + intros sip recs Hx _.
      apply in_top_values in Hx. destruct Hx as [k Hk].
      match goal with
      | |- context [format_sip ?r ?tot sip] =>
          destruct (format_sip_returns r tot sip (Hscores k sip Hk)) as [rec ->]
      end.
      cbn [Py.bind]. eexists. split; [reflexivity | exact I].
    + exact I.
    + now exists out.
Qed.

(** One unreadable plan makes that part raise [TypeError]. *)
Lemma sip_recommendations_raise (p : profile) (sip_data : dict (dict value)) :
  Exists (fun item => sip_readable (snd item) = false) sip_data ->
  sip_recommendations p sip_data = inl TypeError.
Proof.
  intros Hex. unfold sip_recommendations. cbv zeta.
  match goal with
  | |- context [Py.for_each sip_data ?body ?a0] =>
      rewrite (for_each_raises (fun _ : dict sip_entry => True) TypeError sip_data body
                 (fun item => sip_readable (snd item) = false))
        with (acc := a0)
  end; [reflexivity | | | exact Hex | exact I].
  - intros [sip_name sip] s _ _.
    destruct (sip_readable sip) eqn:E.
    + right.
      match goal with
      | |- context [score_sip p ?r ?a sip_name sip] =>
          destruct (score_sip_returns p r a sip_name sip E) as [entry [-> _]]
      end.
      cbn [Py.bind]. eexists. split; [reflexivity | exact I].
    + left. now rewrite score_sip_raises.
  - intros [sip_name sip] s E. cbn [snd] in E. now rewrite score_sip_raises.
Qed.

(** X16. When every plan is readable (no textual minimum investment, and no
    textual risk rating on a plan without a risk level), the SIP scorer
    returns a list of recommendations. *)
Theorem recommend_sip_returns (w : Run.world sip_args) :
  Forall (fun item => sip_readable (snd item) = true) (pa_sip_data (Run.args w)) ->
  exists recommendations, fst (recommend_sip w) = inr recommendations.
Proof.
  intros Hall.
  unfold recommend_sip, Run.bind, Run.logger, Run.arguments, Run.ret.
  cbn [Run.args Run.logged].
  destruct (sip_recommendations_return (pa_profile (Run.args w)) _ Hall) as [recs ->].
  cbn [fst]. now exists recs.
Qed.

Lemma recommend_sip_returns_witness :
  exists recommendations,
    fst (recommend_sip {| Run.args := Examples.sip_call Examples.example_sip_data;
                          Run.logged := [] |}) = inr recommendations.
Proof.
  apply (recommend_sip_returns
           {| Run.args := Examples.sip_call Examples.example_sip_data;
              Run.logged := [] |}).
  simpl. repeat constructor.
Defined.

(** X17. One unreadable plan is enough for the SIP scorer to raise
    [TypeError] and recommend nothing, whatever the other plans are. *)
Theorem recommend_sip_raises (w : Run.world sip_args) :
  Exists (fun item => sip_readable (snd item) = false) (pa_sip_data (Run.args w)) ->
  fst (recommend_sip w) = inl TypeError.
Proof.
  intros Hex.
  unfold recommend_sip, Run.bind, Run.logger, Run.arguments, Run.ret.
  cbn [Run.args Run.logged].
  now rewrite (sip_recommendations_raise (pa_profile (Run.args w)) _ Hex).
Qed.

Lemma recommend_sip_raises_witness :
  fst (recommend_sip
         {| Run.args :=
              Examples.sip_call
                (Examples.example_sip_data ++ Examples.example_sip_text_rating);
            Run.logged := [] |}) = inl TypeError.
Proof.
  apply (recommend_sip_raises
           {| Run.args :=
                Examples.sip_call
                  (Examples.example_sip_data ++ Examples.example_sip_text_rating);
              Run.logged := [] |}).
  simpl. repeat (first [apply Exists_cons_hd; reflexivity | apply Exists_cons_tl]).
Defined.

Lemma format_sip_amount (recommended_monthly_investment total_allocation : Q)
    (sip : sip_entry) (r : sip_recommendation) (minimum : Q) :
  format_sip recommended_monthly_investment total_allocation sip = inr r ->
  sp_min_investment r = VNum minimum -> ~ minimum == 0 ->
  exists amount, sp_monthly_amount r = VNum amount /\ minimum <= amount.
Proof.
  unfold format_sip. cbv zeta.
  destruct (si_min_investment sip) as [|q|s]; cbn.
  - intros H. injection H as <-. cbn. discriminate.
  - destruct (Qeq_bool q 0) eqn:E; cbn.
    + intros H. injection H as <-. cbn. intros Hm Hz. injection Hm as <-.
      apply Qeq_bool_iff in E. contradiction.
    + match goal with
      | |- context [Qltb ?a q] => destruct (Qltb a q) eqn:F
      end; intros H; injection H as <-; cbn; intros Hm _; injection Hm as <-.
      * exists q. split; [reflexivity | lra].
      * eexists. split; [reflexivity|]. now apply Qltb_ge in F.
  - destruct (String.eqb s ""); cbn; intros H; [|discriminate H].
    injection H as <-. cbn. discriminate.
Qed.

(** X18. Every SIP recommendation whose plan states a minimum investment (a
    number other than 0) suggests a monthly amount of at least that
    minimum. *)
Theorem sip_amount_covers_minimum (w : Run.world sip_args)
    (recommendations : list sip_recommendation) :
  fst (recommend_sip w) = inr recommendations ->
  forall r minimum,
    In r recommendations -> sp_min_investment r = VNum minimum -> ~ minimum == 0 ->
    exists amount, sp_monthly_amount r = VNum amount /\ minimum <= amount.
Proof.
  unfold recommend_sip, Run.bind, Run.logger, Run.arguments, Run.ret.
  cbn [Run.args Run.logged].
  destruct (sip_recommendations _ _) as [e|recs] eqn:E; cbn [fst]; [discriminate|].
  intros H. injection H as <-.
  unfold sip_recommendations in E. cbv zeta in E.
  destruct (Py.for_each (pa_sip_data (Run.args w)) _ _) as [e|scores];
    cbn [Py.bind] in E; [discriminate E|].
  refine (for_each_keeps
            (fun recs : list sip_recommendation =>
               forall r minimum,
                 In r recs -> sp_min_investment r = VNum minimum -> ~ minimum == 0 ->
                 exists amount, sp_monthly_amount r = VNum amount /\ minimum <= amount)
            _ _ _ _ _ _ E); [|intros ? ? []].
  intros sip s s' _ Hs Hbody r minimum Hr.
  destruct (format_sip _ _ sip) as [e|r0] eqn:F; cbn [Py.bind] in Hbody; [discriminate|].
  injection Hbody as <-. apply in_app_or in Hr. destruct Hr as [Hr | [<- | []]].
  - now apply Hs.
  - exact (format_sip_amount _ _ _ _ _ F).
Qed.

Lemma sip_amount_covers_minimum_witness :
  exists recommendations,
    fst (recommend_sip {| Run.args := Examples.sip_call Examples.example_sip_data;
                          Run.logged := [] |}) = inr recommendations
    /\ forall r minimum,
         In r recommendations -> sp_min_investment r = VNum minimum -> ~ minimum == 0 ->
         exists amount, sp_monthly_amount r = VNum amount /\ minimum <= amount.
Proof.
  eexists. split; [vm_compute; reflexivity|].
  apply (sip_amount_covers_minimum
           {| Run.args := Examples.sip_call Examples.example_sip_data;
              Run.logged := [] |}).
  vm_compute. reflexivity.
Defined.

End Sip.

(** ** The portfolio guidance *)

Section Guidance.

Local Open Scope string_scope.
Local Open Scope list_scope.

(** X20. The guidance reads the risk tolerance exactly as the profile
    conversion of the [generate_*_recommendations] functions does: the
    same words give the same scores, anything else is read by [int]. *)
Theorem guidance_risk_agrees (profile : dict value) :
  System.guidance_risk_score profile
  = System.risk_value_of (get_or profile "risk_tolerance" (VStr "moderate")).
Proof.
  unfold System.guidance_risk_score, field, get_or.
  destruct (get profile "risk_tolerance") as [[|q|s]|]; try reflexivity.
  unfold System.risk_value_of, ok. f_equal.
  generalize (lower s). intros t.
  unfold get_or, System.risk_words. cbn [get].
  rewrite !(String.eqb_sym _ t).
  destruct (String.eqb t "low") eqn:E1; [reflexivity|].
  destruct (String.eqb t "conservative") eqn:E2; [reflexivity|].
  destruct (String.eqb t "medium") eqn:E3.
  { apply String.eqb_eq in E3. subst t. reflexivity. }
  destruct (String.eqb t "moderate") eqn:E4; [reflexivity|].
  destruct (String.eqb t "high") eqn:E5; [reflexivity|].
  destruct (String.eqb t "aggressive") eqn:E6; reflexivity.
Qed.

Lemma guidance_equity_percent_range (risk_score horizon_years : Z) :
  (30 <= System.guidance_equity_percent risk_score horizon_years <= 90)%Z.
Proof. unfold System.guidance_equity_percent. lia. Qed.

(** X21. Unless the profile holds [None] under "risk_tolerance" or
    "investment_horizon", the guidance is produced, and it splits 100 %
    between equity and debt with 30 to 90 % in equity. *)
Theorem guidance_percentages (profile : dict value) :
  get profile "risk_tolerance" <> Some VNone ->
  get profile "investment_horizon" <> Some VNone ->
  exists g e,
    System.generate_portfolio_guidance profile = inr g
    /\ (30 <= e <= 90)%Z
    /\ System.pg_asset_allocation g
       = [("Equity", Message "{equity_percent}%" [VNum (inject_Z e)]);
          ("Debt", Message "{debt_percent}%" [VNum (inject_Z (100 - e))])].
Proof.
  intros Hr Hh. unfold System.generate_portfolio_guidance.
  assert (Er : exists r, System.guidance_risk_score profile = inr r).
  { unfold System.guidance_risk_score, field, get_or.
    destruct (get profile "risk_tolerance") as [[|q|s]|];
      [congruence | | |]; eexists; reflexivity. }
  assert (Eh : exists h, System.guidance_horizon_years profile = inr h).
  { unfold System.guidance_horizon_years, field, get_or.
    destruct (get profile "investment_horizon") as [[|q|s]|];
      [congruence | | |]; try (eexists; reflexivity).
    cbv zeta. destruct (System.first_number (lower s)); eexists; reflexivity. }
  destruct Er as [r ->]. destruct Eh as [h ->]. cbn [Py.bind]. cbv zeta.
  eexists. exists (System.guidance_equity_percent r h).
  split; [reflexivity|]. split; [apply guidance_equity_percent_range | reflexivity].
Qed.

Lemma guidance_percentages_witness :
  exists g e,
    System.generate_portfolio_guidance
      [("risk_tolerance", VStr "Aggressive"); ("investment_horizon", VStr "10 years")]
    = inr g
    /\ (30 <= e <= 90)%Z
    /\ System.pg_asset_allocation g
       = [("Equity", Message "{equity_percent}%" [VNum (inject_Z e)]);
          ("Debt", Message "{debt_percent}%" [VNum (inject_Z (100 - e))])].
Proof.
  apply (guidance_percentages
           [("risk_tolerance", VStr "Aggressive"); ("investment_horizon", VStr "10 years")]);
    vm_compute; discriminate.
Defined.

End Guidance.

(** ** What a recommendation shows *)

Section Shown.

Local Open Scope string_scope.
Local Open Scope list_scope.

Lemma top_reasons_length (n : nat) (reasons : list message) :
  (List.length (top_reasons n reasons) <= n)%nat.
Proof.
  unfold top_reasons. destruct (n <=? List.length reasons)%nat eqn:E.
  - rewrite length_firstn. lia.
  - apply Nat.leb_gt in E. lia.
Qed.

Lemma top_reasons_prefix (n : nat) (reasons : list message) :
  top_reasons n reasons = firstn n reasons.
Proof.
  unfold top_reasons. destruct (n <=? List.length reasons)%nat eqn:E; [reflexivity|].
  apply Nat.leb_gt in E. symmetry. apply firstn_all2. lia.
Qed.

(** X19. A stock recommendation shows at most three reasons, a mutual fund,
    commodity or SIP recommendation at most two. *)
Theorem reasons_shown_bounded :
  (forall w r, In r (fst (recommend_stocks w)) -> (List.length (sr_reason r) <= 3)%nat)
  /\ (forall w r, In r (fst (recommend_mutual_funds w)) ->
        (List.length (fr_reason r) <= 2)%nat)
  /\ (forall w r, In r (fst (recommend_commodities w)) ->
        (List.length (cr_reason r) <= 2)%nat)
  /\ (forall w recommendations r,
        fst (recommend_sip w) = inr recommendations -> In r recommendations ->
        (List.length (sp_reason r) <= 2)%nat).
Proof.
  split; [|split; [|split]].
  - intros w r H. apply recommend_stocks_formatted in H. destruct H as [stock ->].
    apply top_reasons_length.
  - intros w r. unfold recommend_mutual_funds, Run.bind, Run.logger, Run.arguments, Run.ret.
    cbn [Run.args Run.logged].
    destruct (Run.for_each _ _ _ _) as [fund_scores w1]. cbn [fst].
    intros H. apply in_map_iff in H. destruct H as [fund [<- _]].
    apply top_reasons_length.
  - intros w r. unfold recommend_commodities, Run.bind, Run.logger, Run.arguments, Run.ret.
    cbn [Run.args Run.logged].
    destruct (Run.for_each _ _ _ _) as [commodity_scores w1]. cbn [fst].
    intros H. apply in_map_iff in H. destruct H as [commodity [<- _]].
    apply top_reasons_length.
  - intros w recs r.
    unfold recommend_sip, Run.bind, Run.logger, Run.arguments, Run.ret.
    cbn [Run.args Run.logged].
    destruct (sip_recommendations _ _) as [e|recs'] eqn:E; cbn [fst]; [discriminate|].
    intros H. injection H as <-. revert r.
    unfold sip_recommendations in E. cbv zeta in E.
    destruct (Py.for_each (pa_sip_data (Run.args w)) _ _) as [e|scores];
      cbn [Py.bind] in E; [discriminate E|].
    refine (for_each_keeps
              (fun recs : list sip_recommendation =>
                 forall r, In r recs -> (List.length (sp_reason r) <= 2)%nat)
              _ _ _ _ _ _ E); [|intros ? []].
    intros sip s s' _ Hs Hbody r Hr.
    destruct (format_sip _ _ sip) as [e|r0] eqn:F; cbn [Py.bind] in Hbody; [discriminate|].
    injection Hbody as <-. apply in_app_or in Hr. destruct Hr as [Hr | [<- | []]].
    + now apply Hs.
    + unfold format_sip in F. cbv zeta in F.
      destruct (and_then _ _) as [e|undercut]; cbn [Py.bind] in F; [discriminate F|].
      injection F as <-. apply top_reasons_length.
Qed.


End Shown.

(** ** The range of the stock scores *)

Ltac split_tests :=
  repeat match goal with
         | |- context [if ?b then _ else _] => destruct b
         end.

Section ScoreRange.

Local Open Scope string_scope.
Local Open Scope list_scope.
Local Open Scope Q_scope.

Lemma pe_ratio_analysis_range (fund : dict value) (t : tally) :
  fst t <= fst (pe_ratio_analysis fund t) <= fst t + 4.
Proof.
  unfold pe_ratio_analysis, try_except, Py.bind, ok, award.
  destruct (float _) as [e|x]; split_tests; cbn [fst]; lra.
Qed.

Lemma industry_pe_comparison_range (fund : dict value) (t : tally) :
  fst t <= fst (industry_pe_comparison fund t) <= fst t + 4.
Proof.
  unfold industry_pe_comparison, try_except, Py.bind, ok, award.
  destruct (float (field fund "pe_ratio")) as [e|x];
    destruct (float (field fund "industry_pe")) as [e'|y];
    split_tests; cbn [fst]; lra.
Qed.

Lemma roe_analysis_range (fund : dict value) (t : tally) :
  fst t <= fst (roe_analysis fund t) <= fst t + 5.
Proof.
  unfold roe_analysis, try_except, Py.bind, ok, award.
  destruct (float _) as [e|x]; split_tests; cbn [fst]; lra.
Qed.

Lemma debt_to_equity_analysis_range (fund : dict value) (t : tally) :
  fst t <= fst (debt_to_equity_analysis fund t) <= fst t + 4.
Proof.
  unfold debt_to_equity_analysis, try_except, Py.bind, ok, award.
  destruct (float _) as [e|x]; split_tests; cbn [fst]; lra.
Qed.

Lemma eps_analysis_range (fund : dict value) (t : tally) :
  fst t <= fst (eps_analysis fund t) <= fst t + 4.
Proof.
  unfold eps_analysis, try_except, Py.bind, ok, award.
  destruct (float _) as [e|x]; split_tests; cbn [fst]; lra.
Qed.

Lemma dividend_yield_analysis_range (fund : dict value) (t : tally) :
  fst t <= fst (dividend_yield_analysis fund t) <= fst t + 3.
Proof.
  unfold dividend_yield_analysis, try_except, Py.bind, ok, award.
  destruct (float _) as [e|x]; split_tests; cbn [fst]; lra.
Qed.

Lemma profit_growth_analysis_range (fund : dict value) (t : tally) :
  fst t <= fst (profit_growth_analysis fund t) <= fst t + 5.
Proof.
  unfold profit_growth_analysis, try_except, Py.bind, ok, award.
  destruct (float _) as [e|x]; split_tests; cbn [fst]; lra.
Qed.

Lemma market_cap_analysis_range (p : profile) (fund : dict value) (t : tally) :
  fst t <= fst (snd (market_cap_analysis p fund t)) <= fst t + 3.
Proof.
  unfold market_cap_analysis, try_except, Py.bind, ok, award.
  destruct (float _) as [e|x]; split_tests; cbn [fst snd]; lra.
Qed.

Lemma sector_evaluation_range (sector_sentiment : dict (dict value)) (sector : value)
    (t : tally) :
  fst t <= fst (sector_evaluation sector_sentiment sector t) <= fst t + 2.
Proof.
  unfold sector_evaluation, award.
  destruct sector as [|q|name]; split_tests; cbn [fst]; lra.
Qed.

Lemma complete_data_bonus_range (fund : dict value) (t : tally) :
  fst t <= fst (complete_data_bonus fund t) <= fst t + 1.
Proof.
  unfold complete_data_bonus, award. split_tests; cbn [fst]; lra.
Qed.

Lemma fundamental_score_range (p : profile) (sector_sentiment : dict (dict value))
    (symbol : string) (fund : dict value) :
  0 <= fe_score (fundamental_analysis p sector_sentiment symbol fund) <= 35.
Proof.
  unfold fundamental_analysis. cbv zeta.
  pose proof (pe_ratio_analysis_range fund (0, [])) as H1.
  set (t1 := pe_ratio_analysis fund (0, [])) in *.
  pose proof (industry_pe_comparison_range fund t1) as H2.
  set (t2 := industry_pe_comparison fund t1) in *.
  pose proof (roe_analysis_range fund t2) as H3.
  set (t3 := roe_analysis fund t2) in *.
  pose proof (debt_to_equity_analysis_range fund t3) as H4.
  set (t4 := debt_to_equity_analysis fund t3) in *.
  pose proof (eps_analysis_range fund t4) as H5.
  set (t5 := eps_analysis fund t4) in *.
  pose proof (dividend_yield_analysis_range fund t5) as H6.
  set (t6 := dividend_yield_analysis fund t5) in *.
  pose proof (profit_growth_analysis_range fund t6) as H7.
  set (t7 := profit_growth_analysis fund t6) in *.
  pose proof (market_cap_analysis_range p fund t7) as H8.
  destruct (market_cap_analysis p fund t7) as [category t8]. cbn [snd] in H8.
  pose proof (sector_evaluation_range sector_sentiment
                (get_or fund "sector" (VStr "Unknown")) t8) as H9.
  set (t9 := sector_evaluation _ _ t8) in *.
  pose proof (complete_data_bonus_range fund t9) as H10.
  cbn [fe_score]. cbn [fst] in H1. lra.
Qed.

Lemma price_to_ma50_analysis_range (tech : dict value) (t t' : tally) :
  price_to_ma50_analysis tech t = inr t' -> fst t <= fst t' <= fst t + 3.
Proof.
  unfold price_to_ma50_analysis, Py.bind, ok, award.
  destruct (float _) as [e|x]; split_tests; intros H;
    first [discriminate H | injection H as <-; cbn [fst]; lra].
Qed.

Lemma price_to_ma200_analysis_range (tech : dict value) (t t' : tally) :
  price_to_ma200_analysis tech t = inr t' -> fst t <= fst t' <= fst t + 4.
Proof.
  unfold price_to_ma200_analysis, Py.bind, ok, award.
  destruct (float _) as [e|x]; split_tests; intros H;
    first [discriminate H | injection H as <-; cbn [fst]; lra].
Qed.

Lemma rsi_analysis_range (tech : dict value) (t t' : tally) :
  rsi_analysis tech t = inr t' -> fst t - 1 <= fst t' <= fst t + 3.
Proof.
  unfold rsi_analysis, Py.bind, ok, award.
  destruct (float _) as [e|x]; split_tests; intros H;
    first [discriminate H | injection H as <-; cbn [fst]; lra].
Qed.

Lemma macd_analysis_range (tech : dict value) (t t' : tally) :
  macd_analysis tech t = inr t' -> fst t - 0.5 <= fst t' <= fst t + 6.
Proof.
  unfold macd_analysis, Py.bind, ok, award. cbv zeta.
  destruct (is_not_none _ && is_not_none _); [|intros H; injection H as <-; lra].
  destruct (float (field tech "macd")) as [e|x]; [discriminate|].
  destruct (float (field tech "macd_signal")) as [e|y]; [discriminate|].
  destruct (and_then ((0 <? x) && (y <? x)) _) as [e|strong]; [discriminate|].
  destruct (gt_num _ 0) as [e|rising]; [discriminate|].
  destruct (and_then rising _) as [e|crossover]; [discriminate|].
  split_tests; intros H; injection H as <-; cbn [fst]; lra.
Qed.

Lemma volume_change_analysis_range (tech : dict value) (t t' : tally) :
  volume_change_analysis tech t = inr t' -> fst t <= fst t' <= fst t + 2.
Proof.
  unfold volume_change_analysis, Py.bind, ok, award.
  destruct (float _) as [e|x]; split_tests; intros H;
    first [discriminate H | injection H as <-; cbn [fst]; lra].
Qed.

Lemma day_change_analysis_range (tech : dict value) (t t' : tally) :
  day_change_analysis tech t = inr t' -> fst t <= fst t' <= fst t + 2.
Proof.
  unfold day_change_analysis, Py.bind, ok, award.
  destruct (float _) as [e|x]; split_tests; intros H;
    first [discriminate H | injection H as <-; cbn [fst]; lra].
Qed.

Lemma volatility_assessment_range (p : profile) (tech : dict value) (t t' : tally) :
  volatility_assessment p tech t = inr t' -> fst t <= fst t' <= fst t + 1.
Proof.
  unfold volatility_assessment, Py.bind, ok, award.
  destruct (float _) as [e|x]; split_tests; intros H;
    first [discriminate H | injection H as <-; cbn [fst]; lra].
Qed.

Lemma technical_score_range (p : profile) (fundamental_data : dict (dict value))
    (stock : fundamental_entry) (tech : dict value) (entry : stock_entry) :
  technical_analysis p fundamental_data stock tech = inr entry ->
  fe_score stock - 1.5 <= se_score entry <= fe_score stock + 21.
Proof.
  unfold technical_analysis. cbv zeta.
  destruct (price_to_ma50_analysis _ _) as [e|t1] eqn:E1; cbn [Py.bind]; [discriminate|].
  destruct (price_to_ma200_analysis _ _) as [e|t2] eqn:E2; cbn [Py.bind]; [discriminate|].
  destruct (rsi_analysis _ _) as [e|t3] eqn:E3; cbn [Py.bind]; [discriminate|].
  destruct (macd_analysis _ _) as [e|t4] eqn:E4; cbn [Py.bind]; [discriminate|].
  destruct (volume_change_analysis _ _) as [e|t5] eqn:E5; cbn [Py.bind]; [discriminate|].
  destruct (day_change_analysis _ _) as [e|t6] eqn:E6; cbn [Py.bind]; [discriminate|].
  destruct (volatility_assessment _ _ _) as [e|t7] eqn:E7; cbn [Py.bind]; [discriminate|].
  intros H. injection H as <-. cbn [se_score].
  apply price_to_ma50_analysis_range in E1. apply price_to_ma200_analysis_range in E2.
  apply rsi_analysis_range in E3. apply macd_analysis_range in E4.
  apply volume_change_analysis_range in E5. apply day_change_analysis_range in E6.
  apply volatility_assessment_range in E7. cbn [fst] in E1. lra.
Qed.

(** Every recommended stock went through both analyses. *)
Lemma recommend_stocks_origin (w : Run.world stock_args) (r : stock_recommendation) :
  In r (fst (recommend_stocks w)) ->
  exists symbol fund tech entry,
    r = format_stock entry
    /\ technical_analysis (sa_profile (Run.args w))
         (get_or (sa_stock_data (Run.args w)) "fundamental" [])
         (fundamental_analysis (sa_profile (Run.args w))
            (get_or (sa_sentiment_data (Run.args w)) "sector_sentiment" [])
            symbol fund)
         tech
       = inr entry.
Proof.
  unfold recommend_stocks, Run.bind, Run.logger, Run.arguments, Run.ret.
  cbn [Run.args Run.logged].
  set (p := sa_profile (Run.args w)).
  set (technical_data := get_or (sa_stock_data (Run.args w)) "technical" []).
  set (fundamental_data := get_or (sa_stock_data (Run.args w)) "fundamental" []).
  set (sentiment := get_or (sa_sentiment_data (Run.args w)) "sector_sentiment" []).
  destruct (filter _ _) as [|v0 vs]; [intros []|].
  match goal with
  | |- context [Run.for_each (v0 :: vs) ?body ?a0 ?w0] =>
      pose proof (for_each_invariant
                    (fun fs : dict fundamental_entry =>
                       forall k e, In (k, e) fs ->
                         exists symbol fund, e = fundamental_analysis p sentiment symbol fund)
                    (v0 :: vs) body) as Inv1;
      specialize (fun H => Inv1 H a0 w0);
      destruct (Run.for_each (v0 :: vs) body a0 w0) as [fundamental_scores w1]
  end.
  cbn [fst] in Inv1.
  assert (H1 : forall k e, In (k, e) fundamental_scores ->
                 exists symbol fund, e = fundamental_analysis p sentiment symbol fund).
  { apply Inv1; [|intros ? ? []].
    intros x s w0 _ Hs. destruct (get_or fundamental_data x []) as [|f0 fs] eqn:Ef;
      cbn [fst]; [exact Hs|].
    intros k e Hi. apply in_set in Hi. destruct Hi as [[-> ->] | Hi]; [|now apply (Hs k)].
    now exists x, (f0 :: fs). }
  clear Inv1.
  set (top := firstn 25 (sorted_desc fe_score (values fundamental_scores))).
  assert (Htop : forall stock, In stock top ->
                   exists symbol fund, stock = fundamental_analysis p sentiment symbol fund).
  { intros stock Hs. apply in_top_values in Hs. destruct Hs as [k Hk]. exact (H1 k _ Hk). }
  destruct top as [|t0 ts] eqn:Et; [intros []|].
  rewrite <- Et in *. clear Et t0 ts.
  match goal with
  | |- context [Run.for_each top ?body ?a0 ?w0] =>
      pose proof (for_each_invariant
                    (fun ss : dict stock_entry =>
                       forall k e, In (k, e) ss ->
                         exists symbol fund tech,
                           technical_analysis p fundamental_data
                             (fundamental_analysis p sentiment symbol fund) tech = inr e)
                    top body) as Inv2;
      specialize (fun H => Inv2 H a0 w0);
      destruct (Run.for_each top body a0 w0) as [stock_scores w2]
  end.
  cbn [fst] in Inv2.
  assert (H2 : forall k e, In (k, e) stock_scores ->
                 exists symbol fund tech,
                   technical_analysis p fundamental_data
                     (fundamental_analysis p sentiment symbol fund) tech = inr e).
  { apply Inv2; [|intros ? ? []].
    intros x s w0 Hx Hs.
    destruct (get_or technical_data (fe_symbol x) []) as [|c0 cs]; cbn [fst]; [exact Hs|].
    destruct (technical_analysis _ _ _ _) as [e|entry] eqn:Ea; cbn [fst]; [exact Hs|].
    intros k e Hi. apply in_set in Hi. destruct Hi as [[-> ->] | Hi]; [|now apply (Hs k)].
    destruct (Htop x Hx) as [symbol [fund ->]]. now exists symbol, fund, (c0 :: cs). }
  clear Inv2.
  destruct (firstn 8 _) as [|s0 ss] eqn:Es; [intros []|].
  rewrite <- Es. clear Es s0 ss. cbn [fst]. intros Hr.
  apply in_map_iff in Hr. destruct Hr as [entry [<- He]].
  apply in_top_values in He. destruct He as [k Hk].
  destruct (H2 k entry Hk) as [symbol [fund [tech Ha]]].
  now exists symbol, fund, tech, entry.
Qed.

(** X12. The raw score of a recommended stock lies between -1.5 and 56: the
    fundamental analysis gives 0 to 35 points and the technical analysis
    adds -1.5 to 21. *)
Theorem raw_score_range (w : Run.world stock_args) (r : stock_recommendation) :
  In r (fst (recommend_stocks w)) -> -1.5 <= raw_score r <= 56.
Proof.
  intros H. apply recommend_stocks_origin in H.
  destruct H as [symbol [fund [tech [entry [-> Ha]]]]].
  apply technical_score_range in Ha.
  pose proof (fundamental_score_range (sa_profile (Run.args w))
                (get_or (sa_sentiment_data (Run.args w)) "sector_sentiment" [])
                symbol fund) as Hf.
  cbn [format_stock raw_score]. lra.
Qed.

Lemma raw_score_range_witness :
  exists r,
    In r (fst (recommend_stocks
                 {| Run.args := Examples.stock_call Examples.example_technicals;
                    Run.logged := [] |}))
    /\ -1.5 <= raw_score r <= 56.
Proof.
  destruct (fst (recommend_stocks
                   {| Run.args := Examples.stock_call Examples.example_technicals;
                      Run.logged := [] |})) as [|r l] eqn:E.
  - vm_compute in E. discriminate E.
  - exists r. split; [now left|].
    apply (raw_score_range
             {| Run.args := Examples.stock_call Examples.example_technicals;
                Run.logged := [] |}).
    rewrite E. now left.
Defined.

End ScoreRange.

(** ** The profile conversion on text *)

Section TextProfile.

Local Open Scope string_scope.
Local Open Scope list_scope.







End TextProfile.

(** ** generate_recommendations as a whole *)

(** Replaces a call of [c] in the goal by its result on a fresh log;
    [call_lemma] relates the two for a computation that only reads its
    arguments and logs, which [c] is by [reads]. *)
Ltac replace_by_call call_lemma c reads :=
  match goal with
  | |- context [c {| Run.args := ?a; Run.logged := ?lg |}] =>
      let lines := fresh "lines" in
      destruct (call_lemma _ _ c reads a lg) as [lines ->];
      cbn [Run.args Run.logged]
  end.

Section Composition.

Local Open Scope string_scope.
Local Open Scope list_scope.

Lemma reads_and_logs_call {I A} (c : Run.M I A) :
  Spec.reads_and_logs c ->
  forall a lg, exists lines,
    c {| Run.args := a; Run.logged := lg |}
    = (Run.call c a, {| Run.args := a; Run.logged := lg ++ lines |}).
Proof.
  intros H a lg. destruct (H a) as [x [lines Hx]]. exists lines.
  unfold Run.call. rewrite !Hx. reflexivity.
Qed.



(** X24. One unreadable SIP plan makes the whole of
    [generate_recommendations] raise [TypeError]: the stock, mutual fund
    and commodity recommendations computed before are lost with it. *)
Theorem unreadable_sip_plan_fails_everything
    (w : Run.world System.recommendation_args) :
  Exists (fun item => sip_readable (snd item) = false)
    (System.ra_sip_data (Run.args w)) ->
  fst (System.generate_recommendations w) = inl TypeError.
Proof.
  intros Hex.
  unfold System.generate_recommendations, Run.bind, Run.logger, Run.local.
  cbn [Run.args Run.logged].
  replace_by_call (@reads_and_logs_call) recommend_stocks recommend_stocks_reads_and_logs.
  replace_by_call (@reads_and_logs_call) recommend_mutual_funds
    recommend_mutual_funds_reads_and_logs.
  replace_by_call (@reads_and_logs_call) recommend_commodities
    recommend_commodities_reads_and_logs.
  unfold recommend_sip, Run.bind, Run.logger, Run.arguments, Run.ret.
  cbn [Run.args Run.logged pa_profile pa_sip_data].
  now rewrite (sip_recommendations_raise _ _ Hex).
Qed.

Lemma unreadable_sip_plan_fails_everything_witness :
  fst (System.generate_recommendations
         {| Run.args :=
              {| System.ra_profile := Examples.example_profile;
                 System.ra_stock_data :=
                   sa_stock_data (Examples.stock_call Examples.example_technicals);
                 System.ra_mf_data := Samples.sample_mutual_fund_data;
                 System.ra_commodity_data := Samples.sample_commodity_data;
                 System.ra_sip_data := Examples.example_sip_text_rating;
                 System.ra_sentiment_data := [] |};
            Run.logged := [] |}) = inl TypeError.
Proof.
  apply (unreadable_sip_plan_fails_everything
           {| Run.args :=
                {| System.ra_profile := Examples.example_profile;
                   System.ra_stock_data :=
                     sa_stock_data (Examples.stock_call Examples.example_technicals);
                   System.ra_mf_data := Samples.sample_mutual_fund_data;
                   System.ra_commodity_data := Samples.sample_commodity_data;
                   System.ra_sip_data := Examples.example_sip_text_rating;
                   System.ra_sentiment_data := [] |};
              Run.logged := [] |}).
  simpl. apply Exists_cons_hd. reflexivity.
Defined.

End Composition.
